(** * Effort estimation scripts of github-utils: a shallow embedding

    The development follows the three scripts that carry the estimation
    logic:

    - [scripts/estimate_pr_time.py]: the commit-session estimator
      ([estimate_time_from_commits]);
    - [scripts/get_completed_issues_with_time.py]: the business-hours
      calculator ([calculate_business_hours]) and the issue timeline
      analyzer ([analyze_issue_timing]);
    - [scripts/estimate_pr_time_fallback.py]: the metadata fallback
      estimator ([estimate_time_from_metadata]).

    Python [float] is IEEE-754 binary64, embedded as Rocq's primitive
    [float]; Python [int] is [Z]; [None] is [option]'s [None]. *)

From Stdlib Require Import ZArith List String Ascii Bool Lia Floats.
From Stdlib Require Import Permutation Sorted.
Import ListNotations.

Set Warnings "-inexact-float".

Local Open Scope Z_scope.

(** ** Python numbers *)

Module Py.

(** A value that is an [int] or a [float], as Python's arithmetic
    distinguishes them. *)
Inductive num : Type :=
| Int (z : Z)
| Float (f : float).

(** [float(z)]: the nearest binary64, ties to even. *)
Definition float_of_int (z : Z) : float :=
  SF2Prim (binary_normalize prec emax z 0 false).

Definition to_float (x : num) : float :=
  match x with
  | Int z => float_of_int z
  | Float f => f
  end.

(** The exact integer [z] as an unrounded binary float. *)
Definition exact_of_int (z : Z) : spec_float :=
  match z with
  | Z0 => S754_zero false
  | Zpos p => S754_finite false p 0
  | Zneg p => S754_finite true p 0
  end.

(** [a / b] on two ints: the correctly rounded quotient. *)
Definition int_truediv (a b : Z) : float :=
  SF2Prim (SFdiv prec emax (exact_of_int a) (exact_of_int b)).

(** [x + y] *)
Definition add (x y : num) : num :=
  match x, y with
  | Int a, Int b => Int (a + b)
  | _, _ => Float (PrimFloat.add (to_float x) (to_float y))
  end.

(** [x / y] (true division; always a float) *)
Definition truediv (x y : num) : float :=
  match x, y with
  | Int a, Int b => int_truediv a b
  | _, _ => PrimFloat.div (to_float x) (to_float y)
  end.

(** [x * y] *)
Definition mul (x y : num) : num :=
  match x, y with
  | Int a, Int b => Int (a * b)
  | _, _ => Float (PrimFloat.mul (to_float x) (to_float y))
  end.

(** Round the rational [n / d] ([0 < d]) to the nearest integer, ties
    to even. *)
Definition round_half_even (n d : Z) : Z :=
  let q := n / d in
  let r := n mod d in
  if 2 * r <? d then q
  else if d <? 2 * r then q + 1
  else if Z.even q then q else q + 1.

(** [round(x, ndigits)] on a float, for [0 <= ndigits]: the exact
    binary value of [x] is rounded half-even to [ndigits] decimals and
    the decimal result is converted back to the nearest float, keeping
    the sign; infinities and nan are returned unchanged. *)
Definition round_ndigits (x : float) (ndigits : Z) : float :=
  match Prim2SF x with
  | S754_finite s m e =>
      if 0 <=? e then x
      else
        let p := 10 ^ ndigits in
        let n := round_half_even (Zpos m * p) (2 ^ (- e)) in
        match n with
        | Zpos k => SF2Prim (SFdiv prec emax (S754_finite s k 0) (exact_of_int p))
        | _ => SF2Prim (S754_zero s)
        end
  | _ => x
  end.

(** [round(x)] on a float: the nearest int, ties to even; infinities
    and nan raise. *)
Definition round_int (x : float) : option Z :=
  match Prim2SF x with
  | S754_zero _ => Some 0
  | S754_finite s m e =>
      let n := if 0 <=? e then Zpos m * 2 ^ e
               else round_half_even (Zpos m) (2 ^ (- e)) in
      Some (if s then - n else n)
  | _ => None
  end.

(** Truth value of a float: false exactly for [0.0] and [-0.0]. *)
Definition float_truthy (x : float) : bool := negb (PrimFloat.eqb x 0%float).

(** [max(1, n)] and friends on ints: the first argument wins ties. *)
Definition max_int (a b : Z) : Z := if a <? b then b else a.

(** ** Strings (ASCII text) *)

Definition lower_ascii (c : ascii) : ascii :=
  let n := N_of_ascii c in
  if ((65 <=? n) && (n <=? 90))%N then ascii_of_N (n + 32) else c.

(** [s.lower()] *)
Fixpoint lower (s : string) : string :=
  match s with
  | EmptyString => EmptyString
  | String c s' => String (lower_ascii c) (lower s')
  end.

(** [needle in hay] *)
Fixpoint contains (needle hay : string) : bool :=
  if String.prefix needle hay then true
  else match hay with
       | EmptyString => false
       | String _ hay' => contains needle hay'
       end.

(** ** Dictionaries with string keys, as association lists *)

Fixpoint dict_get {V : Type} (d : list (string * V)) (k : string) (default : V) : V :=
  match d with
  | [] => default
  | (k', v) :: d' => if String.eqb k' k then v else dict_get d' k default
  end.

End Py.

(** ** Aware datetimes and timedeltas *)

Module Datetime.

Definition US_PER_SECOND : Z := 1000000.
Definition US_PER_MINUTE : Z := 60 * US_PER_SECOND.
Definition US_PER_HOUR : Z := 3600 * US_PER_SECOND.
Definition US_PER_DAY : Z := 86400 * US_PER_SECOND.

(** An aware [datetime] whose [tzinfo] is a fixed-offset instance (what
    [fromisoformat] and pytz's [astimezone] attach): the wall-clock
    reading in microseconds since 1970-01-01T00:00:00 on that clock,
    and the offset from UTC in microseconds.  The bounds
    [datetime.min]/[datetime.max] are not modelled. *)
Record datetime : Type := mk { wall : Z; utcoffset : Z }.

(** A [timedelta], in microseconds. *)
Definition timedelta : Type := Z.

(** [dt.date()], as the day number counted from 1970-01-01. *)
Definition date (dt : datetime) : Z := wall dt / US_PER_DAY.

(** [dt.weekday()]: Monday is 0; 1970-01-01 was a Thursday. *)
Definition weekday (dt : datetime) : Z := (date dt + 3) mod 7.

(** [dt.hour] *)
Definition hour (dt : datetime) : Z := (wall dt mod US_PER_DAY) / US_PER_HOUR.

(** [dt.replace(hour=h, minute=m, second=s, microsecond=us)]: same
    date, same tzinfo. *)
Definition replace (dt : datetime) (h m s us : Z) : datetime :=
  mk (date dt * US_PER_DAY + h * US_PER_HOUR + m * US_PER_MINUTE
      + s * US_PER_SECOND + us)
     (utcoffset dt).

(** The point on the UTC time line; comparison and subtraction of
    aware datetimes go through it. *)
Definition instant (dt : datetime) : Z := wall dt - utcoffset dt.

Definition ltb (a b : datetime) : bool := instant a <? instant b.
Definition gtb (a b : datetime) : bool := instant b <? instant a.

(** [a - b] *)
Definition sub (a b : datetime) : timedelta := instant a - instant b.

(** [dt + timedelta(days=n)]: wall-clock arithmetic, same tzinfo. *)
Definition add_days (dt : datetime) (n : Z) : datetime :=
  mk (wall dt + n * US_PER_DAY) (utcoffset dt).

(** [td.total_seconds()] *)
Definition total_seconds (td : timedelta) : float :=
  Py.int_truediv td US_PER_SECOND.

(** [td.days] *)
Definition days (td : timedelta) : Z := td / US_PER_DAY.

(** [max(a, b)] and [min(a, b)]: the first argument wins ties. *)
Definition max (a b : datetime) : datetime := if gtb b a then b else a.
Definition min (a b : datetime) : datetime := if ltb b a then b else a.

(** Day number of a proleptic Gregorian date. *)
Definition days_from_civil (y m d : Z) : Z :=
  let y' := if m <=? 2 then y - 1 else y in
  let era := y' / 400 in
  let yoe := y' - era * 400 in
  let doy := (153 * (if 2 <? m then m - 3 else m + 9) + 2) / 5 + d - 1 in
  let doe := yoe * 365 + yoe / 4 - yoe / 100 + doy in
  era * 146097 + doe - 719468.

(** [datetime(y, m, d, hh, mm, ss, tzinfo=<UTC+off_hours>)] *)
Definition make (y m d hh mm ss off_hours : Z) : datetime :=
  mk (days_from_civil y m d * US_PER_DAY + hh * US_PER_HOUR
      + mm * US_PER_MINUTE + ss * US_PER_SECOND)
     (off_hours * US_PER_HOUR).

End Datetime.

(** ** scripts/estimate_pr_time.py *)

Module EstimatePrTime.
Import Datetime.

Definition MAX_COMMIT_DIFF_MINUTES : Z := 120.
Definition FIRST_COMMIT_BUFFER_MINUTES : Z := 120.

(** The dictionaries built by [fetch_pr_commits]. *)
Record commit : Type := mk_commit {
  sha : string;
  timestamp : datetime;
  author : string;
  message : string
}.

(** The dictionary returned by [estimate_time_from_commits]. *)
Record estimate : Type := mk_estimate {
  estimated_hours : Py.num;
  sessions : Z;
  commits : Z
}.

(** [commits.sort(key=lambda c: c["timestamp"])]: Python's sort is
    stable, so its result is that of a stable insertion sort. *)
Fixpoint insert (c : commit) (l : list commit) : list commit :=
  match l with
  | [] => [c]
  | c' :: l' =>
      if ltb (timestamp c') (timestamp c) then c' :: insert c l'
      else c :: l
  end.

Fixpoint sort (l : list commit) : list commit :=
  match l with
  | [] => []
  | c :: l' => insert c (sort l')
  end.

(** The minutes between two instants:
    [(b - a).total_seconds() / 60]. *)
Definition minutes_between (a b : datetime) : float :=
  PrimFloat.div (total_seconds (sub b a)) (Py.float_of_int 60).

(** One iteration of [for i in range(1, len(commits))] on the state
    [(total_minutes, sessions)]; [d] stands for an index out of range,
    which the loop never reaches. *)
Definition loop_body (cs : list commit) (d : commit)
    (st : Py.num * Z) (i : nat) : Py.num * Z :=
  let '(total_minutes, sessions) := st in
  let diff_minutes :=
    minutes_between (timestamp (nth (i - 1) cs d)) (timestamp (nth i cs d)) in
  if PrimFloat.leb diff_minutes (Py.float_of_int MAX_COMMIT_DIFF_MINUTES)
  then (Py.add total_minutes (Py.Float diff_minutes), sessions)
  else (Py.add total_minutes (Py.Int FIRST_COMMIT_BUFFER_MINUTES), sessions + 1).

Definition estimate_time_from_commits (commits : list commit) : estimate :=
  match commits with
  | [] => mk_estimate (Py.Int 0) 0 0
  | d :: _ =>
      let commits := sort commits in
      let total_minutes := Py.Int 0 in
      let sessions := 1 in
      let total_minutes := Py.add total_minutes (Py.Int FIRST_COMMIT_BUFFER_MINUTES) in
      let '(total_minutes, sessions) :=
        fold_left (loop_body commits d)
                  (seq 1 (List.length commits - 1))
                  (total_minutes, sessions) in
      mk_estimate
        (Py.Float (Py.round_ndigits (Py.truediv total_minutes (Py.Int 60)) 1))
        sessions
        (Z.of_nat (List.length commits))
  end.

(** *** The estimator as the specification words it

    Configuration [maxGapMinutes], [sessionStartupBufferMinutes]; the
    input is the ascending list of commit timestamps. *)

Definition consecutive_pairs {A : Type} (l : list A) : list (A * A) :=
  combine l (tl l).

Definition cluster_step (maxGapMinutes sessionStartupBufferMinutes : Z)
    (st : Py.num * Z) (p : datetime * datetime) : Py.num * Z :=
  let gap := minutes_between (fst p) (snd p) in
  if PrimFloat.leb gap (Py.float_of_int maxGapMinutes)
  then (Py.add (fst st) (Py.Float gap), snd st)
  else (Py.add (fst st) (Py.Int sessionStartupBufferMinutes), snd st + 1).

Definition session_cluster (maxGapMinutes sessionStartupBufferMinutes : Z)
    (ascending : list datetime) (commitCount : Z) : estimate :=
  match ascending with
  | [] => mk_estimate (Py.Int 0) 0 0
  | _ :: _ =>
      let st := fold_left (cluster_step maxGapMinutes sessionStartupBufferMinutes)
                          (consecutive_pairs ascending)
                          (Py.Int sessionStartupBufferMinutes, 1) in
      mk_estimate (Py.Float (Py.round_ndigits (Py.truediv (fst st) (Py.Int 60)) 1))
                  (snd st) commitCount
  end.

(** *** Auxiliary definitions for the statements *)

(** Ascending order of timestamps. *)
Definition ascending : list datetime -> Prop :=
  Sorted (fun a b => instant a <= instant b).

(** Commits used in the examples: 2024-01-08 (UTC) at the given time. *)
Definition commit_at (hh mm : Z) : commit :=
  mk_commit "0000000" (make 2024 1 8 hh mm 0 0) "dev" "work".

(** A consecutive pair whose gap is over the threshold, as the loop
    tests it. *)
Definition opens_session (p : datetime * datetime) : bool :=
  negb (PrimFloat.leb (minutes_between (fst p) (snd p))
                      (Py.float_of_int MAX_COMMIT_DIFF_MINUTES)).

(** The key the sort compares, as a point on the time line. *)
Definition sort_key (c : commit) : Z := instant (timestamp c).

End EstimatePrTime.

(** ** scripts/get_completed_issues_with_time.py *)

Module IssuesWithTime.
Import Datetime.

(** The outcome of running a loop with a bound on its iterations. *)
Inductive outcome (A : Type) : Type :=
| Returns (a : A)
| OutOfFuel.
Arguments Returns {A} a.
Arguments OutOfFuel {A}.

Definition bind {A B : Type} (m : outcome A) (k : A -> outcome B) : outcome B :=
  match m with
  | Returns a => k a
  | OutOfFuel => OutOfFuel
  end.

Definition is_business_day (dt : datetime) : bool := weekday dt <? 5.

Definition get_business_hours_in_day (dt : datetime) : datetime * datetime :=
  let start := replace dt 7 0 0 0 in
  let end_ := replace dt 19 0 0 0 in
  let end_ := if 19 <=? hour dt then replace dt 23 59 59 999999 else end_ in
  (start, end_).

(** The body of the [while] loop of [calculate_business_hours], up to
    the update of [current_dt]: the new value of [total_hours]. *)
Definition day_body (start_dt end_dt current_dt : datetime)
    (total_hours : float) : float :=
  if is_business_day current_dt then
    let '(biz_start, biz_end) := get_business_hours_in_day current_dt in
    let day_start :=
      if date current_dt =? date start_dt then max current_dt biz_start
      else biz_start in
    let day_end :=
      if date current_dt =? date end_dt then min end_dt biz_end
      else biz_end in
    if ltb day_start day_end then
      let hours :=
        PrimFloat.div (total_seconds (sub day_end day_start))
                      (Py.float_of_int 3600) in
      PrimFloat.add total_hours hours
    else total_hours
  else
    if (date current_dt =? date start_dt) || (date current_dt =? date end_dt)
    then PrimFloat.add total_hours 4.0%float
    else total_hours.

(** [(current_dt + timedelta(days=1)).replace(hour=0, minute=0,
    second=0, microsecond=0)] *)
Definition next_day (current_dt : datetime) : datetime :=
  replace (add_days current_dt 1) 0 0 0 0.

(** [while current_dt.date() <= end_dt.date(): ...] *)
Fixpoint while_loop (fuel : nat) (start_dt end_dt current_dt : datetime)
    (total_hours : float) : outcome float :=
  match fuel with
  | O => OutOfFuel
  | S fuel' =>
      if date current_dt <=? date end_dt then
        while_loop fuel' start_dt end_dt (next_day current_dt)
                   (day_body start_dt end_dt current_dt total_hours)
      else Returns total_hours
  end.

Definition calculate_business_hours_fuel (fuel : nat)
    (start_dt end_dt : option datetime) : outcome float :=
  match start_dt, end_dt with
  | Some start_dt, Some end_dt =>
      let '(start_dt, end_dt) :=
        if gtb start_dt end_dt then (end_dt, start_dt)
        else (start_dt, end_dt) in
      while_loop fuel start_dt end_dt start_dt 0.0%float
  | _, _ => Returns 0.0%float
  end.

(** Iterations the loop can take: one per day from the first date to
    the last, and the failing test that leaves it. *)
Definition enough_fuel (start_dt end_dt : option datetime) : nat :=
  match start_dt, end_dt with
  | Some a, Some b => Z.to_nat (Z.abs (date a - date b)) + 2
  | _, _ => O
  end.

Definition calculate_business_hours (start_dt end_dt : option datetime)
    : outcome float :=
  calculate_business_hours_fuel (enough_fuel start_dt end_dt) start_dt end_dt.

(** *** The timeline analyzer *)

(** A timeline or issue event, with [created_at] already passed through
    [parse_github_datetime] ([None] when missing or empty). *)
Record event : Type := mk_event {
  ev_event : option string;
  ev_type : option string;
  ev_created_at : option datetime;
  ev_actor_login : option string
}.

(** The fields of an issue that [analyze_issue_timing] reads, the two
    dates already parsed. *)
Record issue : Type := mk_issue {
  number : Z;
  title : string;
  created_at : option datetime;
  closed_at : option datetime;
  user_login : option string;
  assignee_login : option string;
  labels : list string;
  html_url : string
}.

(** The returned dictionary; the dates are kept as datetimes instead of
    their [isoformat()] text. *)
Record timing : Type := mk_timing {
  t_number : Z;
  t_title : string;
  t_created_at : option datetime;
  t_closed_at : option datetime;
  t_assignee : option string;
  t_labels : list string;
  business_hours : float;
  calendar_days : Z;
  time_to_first_response_hours : option float;
  time_to_assignment_hours : option float;
  t_url : string
}.

Definition option_string_eqb (a b : option string) : bool :=
  match a, b with
  | Some x, Some y => String.eqb x y
  | None, None => true
  | _, _ => false
  end.

(** [event_type in names] *)
Definition type_in (event_type : option string) (names : list string) : bool :=
  match event_type with
  | Some t => existsb (String.eqb t) names
  | None => false
  end.

(** [not x] on a value that is [None] or a datetime. *)
Definition py_not (x : option datetime) : bool :=
  match x with
  | Some _ => false
  | None => true
  end.

(** The anchors [(first_response, assigned_at, labeled_at)]. *)
Definition anchors : Type :=
  (option datetime * option datetime * option datetime)%type.

(** The body of [for event in all_events]. *)
Definition scan_event (i : issue) (st : anchors) (ev : event) : anchors :=
  let '(first_response, assigned_at, labeled_at) := st in
  let event_type :=
    match ev_event ev with
    | Some e => Some e
    | None => ev_type ev
    end in
  let event_time := ev_created_at ev in
  let first_response :=
    if type_in event_type ["commented"; "comment"]%string && py_not first_response
    then
      if negb (option_string_eqb (ev_actor_login ev) (user_login i))
      then event_time
      else first_response
    else first_response in
  let assigned_at :=
    if type_in event_type ["assigned"]%string && py_not assigned_at
    then event_time else assigned_at in
  let labeled_at :=
    if type_in event_type ["labeled"]%string && py_not labeled_at
    then event_time else labeled_at in
  (first_response, assigned_at, labeled_at).

(** [round(x, 2) if x else None] on a value that is [None] or a float. *)
Definition report_metric (x : option float) : option float :=
  match x with
  | Some h => if Py.float_truthy h then Some (Py.round_ndigits h 2) else None
  | None => None
  end.

(** [analyze_issue_timing]; [timeline] is what [fetch_issue_timeline]
    returned and [issue_events] what [fetch_issue_events] returns, which
    is asked for only when the timeline is empty. *)
Definition analyze_issue_timing (i : issue) (timeline issue_events : list event)
    : outcome timing :=
  let events := match timeline with [] => issue_events | _ :: _ => [] end in
  bind (calculate_business_hours (created_at i) (closed_at i))
  (fun business_hours =>
  let calendar_days :=
    match created_at i, closed_at i with
    | Some created, Some closed => days (sub closed created)
    | _, _ => 0
    end in
  let all_events := timeline ++ events in
  let '(first_response, assigned_at, labeled_at) :=
    fold_left (scan_event i) all_events (None, None, None) in
  bind (match first_response with
        | Some _ =>
            bind (calculate_business_hours (created_at i) first_response)
                 (fun h => Returns (Some h))
        | None => Returns None
        end)
  (fun time_to_first_response =>
  bind (match assigned_at with
        | Some _ =>
            bind (calculate_business_hours (created_at i) assigned_at)
                 (fun h => Returns (Some h))
        | None => Returns None
        end)
  (fun time_to_assignment =>
  Returns (mk_timing
    (number i) (title i) (created_at i) (closed_at i)
    (assignee_login i) (labels i)
    (Py.round_ndigits business_hours 2)
    calendar_days
    (report_metric time_to_first_response)
    (report_metric time_to_assignment)
    (html_url i))))).

(** *** Auxiliary definitions for the statements *)

(** Days used in the examples; the zone offset is UTC-8 (Pacific
    standard time).  2024-01-05 is a Friday. *)
Definition pst (y m d hh mm : Z) : datetime := make y m d hh mm 0 (-8).

(** The successive values of [current_dt] over [n] iterations. *)
Fixpoint cursors (n : nat) (current_dt : datetime) : list datetime :=
  match n with
  | O => []
  | S n' => current_dt :: cursors n' (next_day current_dt)
  end.

(** The values [current_dt] takes in the loop body when the loop starts
    from [start_dt]. *)
Definition visited (start_dt end_dt : datetime) : list datetime :=
  cursors (Z.to_nat (date end_dt - date start_dt + 1)) start_dt.

(** The days from [lo] to [hi] inclusive. *)
Definition day_range (lo hi : Z) : list Z :=
  map (fun k => lo + Z.of_nat k) (seq 0 (Z.to_nat (hi - lo + 1))).

(** An issue opened by alice on Monday 2024-01-08 at 10:00, answered by
    a bot and assigned within the same second. *)
Definition instant_issue : issue :=
  mk_issue 42 "Crash on start"
           (Some (pst 2024 1 8 10 0)) (Some (pst 2024 1 9 12 0))
           (Some "alice"%string) None [] "https://github.com/o/r/issues/42".

Definition instant_timeline : list event :=
  [ mk_event (Some "commented"%string) None (Some (pst 2024 1 8 10 0))
             (Some "triage-bot"%string);
    mk_event (Some "assigned"%string) None (Some (pst 2024 1 8 10 0))
             (Some "alice"%string) ].

(** *** The analysis of [main] without [--detailed] *)

(** The dictionary built in the [else] branch of [main]; the dates are
    kept as datetimes instead of their [isoformat()] text. *)
Record basic_timing : Type := mk_basic_timing {
  b_number : Z;
  b_title : string;
  b_created_at : option datetime;
  b_closed_at : option datetime;
  b_assignee : option string;
  b_labels : list string;
  b_business_hours : float;
  b_calendar_days : Z;
  b_url : string
}.

Definition simple_analysis (i : issue) : outcome basic_timing :=
  bind (calculate_business_hours (created_at i) (closed_at i))
  (fun business_hours =>
  let calendar_days :=
    match created_at i, closed_at i with
    | Some created, Some closed => days (sub closed created)
    | _, _ => 0
    end in
  Returns (mk_basic_timing
    (number i) (title i) (created_at i) (closed_at i)
    (assignee_login i) (labels i)
    (Py.round_ndigits business_hours 2)
    calendar_days
    (html_url i))).

(** *** Further definitions for the statements *)

(** The type of an event: [event.get('event', event.get('type'))]. *)
Definition event_type_of (ev : event) : option string :=
  match ev_event ev with
  | Some e => Some e
  | None => ev_type ev
  end.

(** A comment by somebody other than the author of the issue. *)
Definition is_response (i : issue) (ev : event) : bool :=
  type_in (event_type_of ev) ["commented"; "comment"]%string
  && negb (option_string_eqb (ev_actor_login ev) (user_login i)).

Definition is_assignment (ev : event) : bool :=
  type_in (event_type_of ev) ["assigned"]%string.

(** The anchors read off the state of the scan. *)
Definition first_response_of (st : anchors) : option datetime := fst (fst st).
Definition assigned_at_of (st : anchors) : option datetime := snd (fst st).

(** The scan as a search for the first event of a kind that carries a
    time. *)
Fixpoint first_time (kind : event -> bool) (l : list event) : option datetime :=
  match l with
  | [] => None
  | ev :: l' =>
      match (if kind ev then ev_created_at ev else None) with
      | Some t => Some t
      | None => first_time kind l'
      end
  end.

(** The datetime at [h]:00 on day number [d], written with the UTC
    offset [off] (in microseconds). *)
Definition at_hour (d h off : Z) : datetime :=
  mk (d * US_PER_DAY + h * US_PER_HOUR) off.

(** The business days among [n] consecutive days starting with the
    day of [dt]. *)
Definition business_days_from (dt : datetime) (n : nat) : list Z :=
  filter (fun k => is_business_day (add_days dt k))
         (map Z.of_nat (seq 0 n)).

(** The events the scan runs over. *)
Definition all_events (timeline issue_events : list event) : list event :=
  timeline ++ match timeline with [] => issue_events | _ :: _ => [] end.

(** The local time of day, in microseconds since midnight. *)
Definition time_of_day (dt : datetime) : Z := wall dt mod US_PER_DAY.

End IssuesWithTime.

(** ** The paginated requests

    [fetch_closed_issues] (in both issue scripts), [fetch_issue_timeline]
    and [fetch_issue_events].  A call fixes the URL, the headers and the
    query; what remains of [requests.get] is the reply of the server to
    each page number, given here as a function.  Connection errors and
    timeouts are not modelled. *)

Module Fetch.
Import IssuesWithTime.

(** A reply: its status code and the list found in its JSON body (for
    the search API, [data.get("items", [])]). *)
Record response (A : Type) : Type := mk_response {
  status_code : Z;
  json : list A
}.
Arguments mk_response {A} _ _.
Arguments status_code {A} _.
Arguments json {A} _.

(** What a call gives back: a list, or the exception of
    [raise_for_status]. *)
Inductive result (A : Type) : Type :=
| Ok (a : A)
| HTTPError.
Arguments Ok {A} a.
Arguments HTTPError {A}.

(** [response.raise_for_status()] raises for the 4xx and 5xx codes. *)
Definition raises {A : Type} (r : response A) : bool :=
  (400 <=? status_code r) && (status_code r <? 600).

Definition per_page : nat := 100.

(** The [while True] loop of [fetch_closed_issues]. *)
Fixpoint closed_issues_loop {A : Type} (fuel : nat) (get : Z -> response A)
    (issues : list A) (page : Z) : outcome (result (list A)) :=
  match fuel with
  | O => OutOfFuel
  | S fuel' =>
      let response := get page in
      if raises response then Returns HTTPError
      else
        let items := json response in
        let issues := issues ++ items in
        if (List.length items <? per_page)%nat then Returns (Ok issues)
        else closed_issues_loop fuel' get issues (page + 1)
  end.

Definition fetch_closed_issues {A : Type} (fuel : nat) (get : Z -> response A)
    : outcome (result (list A)) :=
  closed_issues_loop fuel get [] 1.

(** The [while True] loop of [fetch_issue_timeline] and of
    [fetch_issue_events]. *)
Fixpoint events_loop {A : Type} (fuel : nat) (get : Z -> response A)
    (events : list A) (page : Z) : outcome (result (list A)) :=
  match fuel with
  | O => OutOfFuel
  | S fuel' =>
      let response := get page in
      if (status_code response =? 403) || (status_code response =? 404)
      then Returns (Ok [])
      else if raises response then Returns HTTPError
      else
        let data := json response in
        match data with
        | [] => Returns (Ok events)
        | _ :: _ =>
            let events := events ++ data in
            if (List.length data <? per_page)%nat then Returns (Ok events)
            else events_loop fuel' get events (page + 1)
        end
  end.

Definition fetch_issue_timeline {A : Type} (fuel : nat) (get : Z -> response A)
    : outcome (result (list A)) :=
  events_loop fuel get [] 1.

Definition fetch_issue_events {A : Type} (fuel : nat) (get : Z -> response A)
    : outcome (result (list A)) :=
  events_loop fuel get [] 1.

(** *** Definitions for the statements *)

(** A reply that does not raise and fills its page. *)
Definition full_page {A : Type} (r : response A) : bool :=
  negb (raises r) && negb (List.length (json r) <? per_page)%nat.

(** The bodies of the pages [first], ..., [first + n - 1], in order. *)
Fixpoint pages {A : Type} (get : Z -> response A) (first : Z) (n : nat) : list A :=
  match n with
  | O => []
  | S n' => json (get first) ++ pages get (first + 1) n'
  end.

(** *** [analyze_issue_timing] with its two requests

    The timeline is fetched first, and the issue events only when the
    timeline came back empty; an exception of either request leaves the
    analyzer. *)
Definition analyze_issue_timing_fetching (fuel : nat)
    (get_timeline get_events : Z -> response event) (i : issue)
    : outcome (result timing) :=
  bind (fetch_issue_timeline fuel get_timeline)
  (fun fetched =>
  match fetched with
  | HTTPError => Returns HTTPError
  | Ok timeline =>
      bind (match timeline with
            | [] => fetch_issue_events fuel get_events
            | _ :: _ => Returns (Ok [])
            end)
      (fun fetched' =>
      match fetched' with
      | HTTPError => Returns HTTPError
      | Ok events =>
          bind (analyze_issue_timing i timeline events)
               (fun r => Returns (Ok r))
      end)
  end).

(** Servers used in the examples; the items are numbers. *)
Definition items_from (start : Z) (n : nat) : list Z :=
  map (fun k => start + Z.of_nat k) (seq 0 n).

(** 107 items: a full page, then a short one. *)
Definition two_page_server (page : Z) : response Z :=
  if page =? 1 then mk_response 200 (items_from 0 100)
  else if page =? 2 then mk_response 200 (items_from 100 7)
  else mk_response 200 [].

(** A full page, then a reply with the given status. *)
Definition failing_server (status : Z) (page : Z) : response Z :=
  if page =? 1 then mk_response 200 (items_from 0 100)
  else mk_response status [].

(** Full pages for ever. *)
Definition endless_server (page : Z) : response Z :=
  mk_response 200 (items_from (100 * (page - 1)) 100).

End Fetch.

(** ** scripts/estimate_pr_time_fallback.py *)

Module Fallback.
Local Open Scope string_scope.

Definition DEFAULT_DEV_HOURS : list (string * list (string * Z)) :=
  [ ("Feature",        [("Small", 12); ("Medium", 20); ("Large", 32)]);
    ("Bug_Fix",        [("Small", 4);  ("Medium", 8);  ("Large", 12)]);
    ("Enhancement",    [("Small", 6);  ("Medium", 10); ("Large", 16)]);
    ("Infrastructure", [("Small", 4);  ("Medium", 8);  ("Large", 16)]);
    ("Refactoring",    [("Small", 8);  ("Medium", 12); ("Large", 20)]);
    ("Testing",        [("Small", 6);  ("Medium", 12); ("Large", 24)]);
    ("UI_Enhancement", [("Small", 4);  ("Medium", 8);  ("Large", 12)]);
    ("Documentation",  [("Small", 2);  ("Medium", 4);  ("Large", 8)]);
    ("Security",       [("Small", 4);  ("Medium", 8);  ("Large", 12)]);
    ("Performance",    [("Small", 6);  ("Medium", 10); ("Large", 16)]);
    ("Database",       [("Small", 6);  ("Medium", 10); ("Large", 16)]);
    ("Maintenance",    [("Small", 3);  ("Medium", 5);  ("Large", 8)]);
    ("Hotfix",         [("Small", 4);  ("Medium", 6);  ("Large", 10)]);
    ("Development",    [("Small", 6);  ("Medium", 10); ("Large", 16)]) ]%Z.

(** The keys of a PR dictionary that the estimator reads; [None] is a
    missing key. *)
Record pr : Type := mk_pr {
  category : option string;
  complexity : option string;
  title : option string
}.

(** The returned dictionary. *)
Record estimate : Type := mk_estimate {
  estimated_hours : float;
  sessions : Z;
  commits : Z;
  method : string;
  confidence : string
}.

(** [pr.get(key, default)] *)
Definition get (field : option string) (default : string) : string :=
  match field with
  | Some v => v
  | None => default
  end.

(** [multiplier *= k] when the condition holds. *)
Definition scale_if (cond : bool) (k multiplier : float) : float :=
  if cond then PrimFloat.mul multiplier k else multiplier.

Definition base_hours_of (category complexity : string) : Z :=
  Py.dict_get
    (Py.dict_get DEFAULT_DEV_HOURS category
                 (Py.dict_get DEFAULT_DEV_HOURS "Maintenance" []))
    complexity 6%Z.

Definition multiplier_of (title : string) : float :=
  let multiplier := 1.0%float in
  let multiplier :=
    scale_if (Py.contains "refactor" title || Py.contains "restructure" title)
             1.2%float multiplier in
  let multiplier :=
    scale_if (Py.contains "test" title || Py.contains "testing" title)
             1.1%float multiplier in
  let multiplier :=
    scale_if (Py.contains "fix" title && negb (Py.contains "hotfix" title))
             0.9%float multiplier in
  let multiplier :=
    scale_if (Py.contains "update" title || Py.contains "enhance" title)
             1.1%float multiplier in
  let multiplier :=
    scale_if (Py.contains "mvp" title) 1.3%float multiplier in
  let multiplier :=
    scale_if (Py.contains "working" title || Py.contains "mid" title)
             0.7%float multiplier in
  multiplier.

(** [estimate_time_from_metadata]; [None] when [round] raises. *)
Definition estimate_time_from_metadata (p : pr) : option estimate :=
  let category := get (category p) "Maintenance" in
  let complexity := get (complexity p) "Small" in
  let base_hours := base_hours_of category complexity in
  let title := Py.lower (get (title p) "") in
  let multiplier := multiplier_of title in
  let estimated_hours :=
    Py.round_ndigits (PrimFloat.mul (Py.float_of_int base_hours) multiplier) 1 in
  let sessions :=
    Py.dict_get [("Small", 1); ("Medium", 2); ("Large", 3)]%Z complexity 1%Z in
  match Py.round_int (PrimFloat.div estimated_hours (Py.float_of_int 2)) with
  | Some n =>
      let estimated_commits := Py.max_int 1 n in
      Some (mk_estimate estimated_hours sessions estimated_commits
                        "metadata_based" "low")
  | None => None
  end.

(** *** The estimator as the specification words it

    A lookup with a default category and a default hour value, and a
    list of keyword rules of which every matching one multiplies. *)

Definition find_entry {V : Type} (d : list (string * V)) (k : string) : option V :=
  option_map snd (find (fun kv => String.eqb (fst kv) k) d).

Definition spec_default_category : string := "Maintenance".
Definition spec_default_hours : Z := 6.

Definition spec_base_hours (category complexity : string) : Z :=
  let row :=
    match find_entry DEFAULT_DEV_HOURS category with
    | Some row => row
    | None =>
        match find_entry DEFAULT_DEV_HOURS spec_default_category with
        | Some row => row
        | None => []
        end
    end in
  match find_entry row complexity with
  | Some h => h
  | None => spec_default_hours
  end.

(** The rules, each a test on the lower-cased title and its factor. *)
Definition spec_rules : list ((string -> bool) * float) :=
  [ (fun t => Py.contains "refactor" t || Py.contains "restructure" t, 1.2%float);
    (fun t => Py.contains "test" t || Py.contains "testing" t, 1.1%float);
    (fun t => Py.contains "fix" t && negb (Py.contains "hotfix" t), 0.9%float);
    (fun t => Py.contains "update" t || Py.contains "enhance" t, 1.1%float);
    (fun t => Py.contains "mvp" t, 1.3%float);
    (fun t => Py.contains "working" t || Py.contains "mid" t, 0.7%float) ].

Definition spec_multiplier (title : string) : float :=
  fold_left (fun acc rule => PrimFloat.mul acc (snd rule))
            (filter (fun rule => fst rule (Py.lower title)) spec_rules)
            1.0%float.

Definition spec_estimated_hours (category complexity title : string) : float :=
  Py.round_ndigits
    (PrimFloat.mul (Py.float_of_int (spec_base_hours category complexity))
                   (spec_multiplier title)) 1.

(** *** Auxiliary definitions for the statements *)

(** The multiplier as a function of which rules match. *)
Definition multiplier_from (b1 b2 b3 b4 b5 b6 : bool) : float :=
  scale_if b6 0.7%float
    (scale_if b5 1.3%float
       (scale_if b4 1.1%float
          (scale_if b3 0.9%float
             (scale_if b2 1.1%float
                (scale_if b1 1.2%float 1.0%float))))).

(** Every value the lookup can give. *)
Definition hours_values : list Z :=
  6%Z :: flat_map (fun row => map snd (snd row)) DEFAULT_DEV_HOURS.

Definition commits_defined (base : Z) (multiplier : float) : bool :=
  match Py.round_int
          (PrimFloat.div
             (Py.round_ndigits (PrimFloat.mul (Py.float_of_int base) multiplier) 1)
             (Py.float_of_int 2)) with
  | Some _ => true
  | None => false
  end.

Definition bools : list bool := [true; false].

Definition commits_defined_for (base : Z) : bool :=
  forallb (fun b1 => forallb (fun b2 => forallb (fun b3 =>
  forallb (fun b4 => forallb (fun b5 => forallb (fun b6 =>
    commits_defined base (multiplier_from b1 b2 b3 b4 b5 b6))
  bools) bools) bools) bools) bools) bools.

(** *** [extract_issue_number]

    [re.search(r'#?(\d+)', title)]: the positions of the title are tried
    from the left; at each, an optional [#] and then one or more digits,
    as many as there are.  The digits are those of ASCII. *)

Definition is_digit (c : ascii) : bool :=
  let n := N_of_ascii c in ((48 <=? n) && (n <=? 57))%N.

(** The digits a string starts with. *)
Fixpoint leading_digits (s : string) : string :=
  match s with
  | EmptyString => EmptyString
  | String c s' => if is_digit c then String c (leading_digits s') else EmptyString
  end.

(** [(\d+)] at the start of [s]: the group. *)
Definition match_digits (s : string) : option string :=
  match leading_digits s with
  | EmptyString => None
  | ds => Some ds
  end.

(** [#?(\d+)] at the start of [s]: with the [#] taken if there is one,
    and without it if that fails. *)
Definition match_here (s : string) : option string :=
  match s with
  | String "#"%char s' =>
      match match_digits s' with
      | Some g => Some g
      | None => match_digits s
      end
  | _ => match_digits s
  end.

Fixpoint search (s : string) : option string :=
  match match_here s with
  | Some g => Some g
  | None =>
      match s with
      | EmptyString => None
      | String _ s' => search s'
      end
  end.

Definition extract_issue_number (title : string) : string :=
  match search title with
  | Some g => g
  | None => "N/A"
  end.

(** *** Further definitions for the statements *)

Fixpoint all_chars (P : ascii -> bool) (s : string) : bool :=
  match s with
  | EmptyString => true
  | String c s' => P c && all_chars P s'
  end.

(** A property of base hours and multiplier, over every combination of
    matching rules. *)
Definition for_all_rules (P : Z -> float -> bool) (base : Z) : bool :=
  forallb (fun b1 => forallb (fun b2 => forallb (fun b3 =>
  forallb (fun b4 => forallb (fun b5 => forallb (fun b6 =>
    P base (multiplier_from b1 b2 b3 b4 b5 b6))
  bools) bools) bools) bools) bools) bools.

Definition hours_of (base : Z) (multiplier : float) : float :=
  Py.round_ndigits (PrimFloat.mul (Py.float_of_int base) multiplier) 1.

Definition hours_in_range (base : Z) (multiplier : float) : bool :=
  PrimFloat.leb 1.3%float (hours_of base multiplier)
  && PrimFloat.leb (hours_of base multiplier) 60.4%float.

Definition complexities : list string := ["Small"; "Medium"; "Large"].

End Fallback.

(** * Properties *)

(** ** Lists of integers *)

Section SortedLists.

Lemma strongly_sorted_perm_eq (l1 l2 : list Z) :
  StronglySorted Z.le l1 -> StronglySorted Z.le l2 ->
  Permutation l1 l2 -> l1 = l2.
Proof.
  revert l2; induction l1 as [|a l1 IH]; intros l2 S1 S2 P.
  - now apply Permutation_nil in P.
  - destruct l2 as [|b l2].
    + apply Permutation_sym, Permutation_nil in P; discriminate.
    + inversion S1 as [|? ? S1' F1]; inversion S2 as [|? ? S2' F2]; subst.
      assert (a = b) as ->.
      { assert (In a (b :: l2)) as Ia
          by (eapply Permutation_in; [exact P | now left]).
        assert (In b (a :: l1)) as Ib
          by (eapply Permutation_in; [exact (Permutation_sym P) | now left]).
        rewrite Forall_forall in F1, F2.
        destruct Ia as [->|Ia]; [reflexivity|].
        destruct Ib as [->|Ib]; [reflexivity|].
        specialize (F1 _ Ib); specialize (F2 _ Ia); lia. }
      f_equal; apply IH; auto.
      now apply Permutation_cons_inv in P.
Qed.

Lemma sorted_perm_eq (l1 l2 : list Z) :
  Sorted Z.le l1 -> Sorted Z.le l2 -> Permutation l1 l2 -> l1 = l2.
Proof.
  intros S1 S2; apply strongly_sorted_perm_eq;
    apply Sorted_StronglySorted; auto; intros x y z; apply Z.le_trans.
Qed.

End SortedLists.

(** ** The commit-session estimator *)

Section CommitSessions.
Import Datetime EstimatePrTime.

Lemma ascending_instants (l : list datetime) :
  ascending l -> Sorted Z.le (map instant l).
Proof.
  induction 1 as [|a l S IH H]; simpl; constructor; auto.
  destruct H; simpl; constructor; auto.
Qed.

Lemma insert_perm (c : commit) (l : list commit) :
  Permutation (insert c l) (c :: l).
Proof.
  induction l as [|c' l IH]; simpl; auto.
  destruct (ltb (timestamp c') (timestamp c)); auto.
  rewrite IH; apply perm_swap.
Qed.

Lemma sort_perm (l : list commit) : Permutation (sort l) l.
Proof.
  induction l as [|c l IH]; simpl; auto.
  rewrite insert_perm; auto.
Qed.

Lemma insert_head (c c' : commit) (l : list commit) :
  instant (timestamp c') <= instant (timestamp c) ->
  HdRel (fun a b => instant a <= instant b) (timestamp c') (map timestamp l) ->
  HdRel (fun a b => instant a <= instant b) (timestamp c')
        (map timestamp (insert c l)).
Proof.
  intros Hc H; destruct l as [|c'' l]; simpl.
  - now constructor.
  - destruct (ltb (timestamp c'') (timestamp c)); simpl; constructor; auto.
    now inversion H.
Qed.

Lemma insert_ascending (c : commit) (l : list commit) :
  ascending (map timestamp l) -> ascending (map timestamp (insert c l)).
Proof.
  unfold ascending.
  induction l as [|c' l IH]; simpl; intros S.
  - repeat constructor.
  - unfold ltb at 1.
    destruct (Z.ltb_spec (instant (timestamp c')) (instant (timestamp c))).
    + simpl; inversion S as [|? ? S' H']; subst.
      constructor; auto.
      apply insert_head; auto; lia.
    + simpl; constructor; auto.
Qed.

Lemma sort_ascending (l : list commit) : ascending (map timestamp (sort l)).
Proof.
  induction l as [|c l IH]; simpl.
  - constructor.
  - now apply insert_ascending.
Qed.

Lemma loop_body_step cs d st i :
  loop_body cs d st i =
  cluster_step MAX_COMMIT_DIFF_MINUTES FIRST_COMMIT_BUFFER_MINUTES st
               (timestamp (nth (i - 1) cs d), timestamp (nth i cs d)).
Proof. destruct st; reflexivity. Qed.

Lemma loop_from_prefix (l pre : list commit) (a d : commit) st :
  fold_left (loop_body (pre ++ a :: l) d)
            (seq (S (List.length pre)) (List.length l)) st =
  fold_left (cluster_step MAX_COMMIT_DIFF_MINUTES FIRST_COMMIT_BUFFER_MINUTES)
            (consecutive_pairs (map timestamp (a :: l))) st.
Proof.
  revert pre a st; induction l as [|b l IH]; intros pre a st.
  - reflexivity.
  - cbn [List.length seq fold_left].
    rewrite loop_body_step.
    replace (S (List.length pre) - 1)%nat with (List.length pre) by lia.
    rewrite (app_nth2 pre (a :: b :: l) d) by lia.
    rewrite (app_nth2 pre (a :: b :: l) d) by lia.
    replace (S (List.length pre) - List.length pre)%nat with 1%nat by lia.
    rewrite Nat.sub_diag; cbn [nth].
    replace (pre ++ a :: b :: l) with ((pre ++ [a]) ++ b :: l)
      by (rewrite <- app_assoc; reflexivity).
    replace (S (S (List.length pre))) with (S (List.length (pre ++ [a])))
      by (rewrite length_app; simpl; lia).
    rewrite IH; reflexivity.
Qed.

Lemma loop_as_pairs (cs : list commit) (d : commit) st :
  fold_left (loop_body cs d) (seq 1 (List.length cs - 1)) st =
  fold_left (cluster_step MAX_COMMIT_DIFF_MINUTES FIRST_COMMIT_BUFFER_MINUTES)
            (consecutive_pairs (map timestamp cs)) st.
Proof.
  destruct cs as [|a l]; [reflexivity|].
  replace (List.length (a :: l) - 1)%nat with (List.length l) by (simpl; lia).
  exact (loop_from_prefix l [] a d st).
Qed.

(** The indexed loop of the source is the fold over consecutive pairs
    of the sorted timestamps. *)
Lemma estimate_as_cluster (cs : list commit) :
  estimate_time_from_commits cs =
  session_cluster MAX_COMMIT_DIFF_MINUTES FIRST_COMMIT_BUFFER_MINUTES
                  (map timestamp (sort cs)) (Z.of_nat (List.length cs)).
Proof.
  destruct cs as [|d cs]; [reflexivity|].
  unfold estimate_time_from_commits.
  rewrite loop_as_pairs.
  assert (L : List.length (sort (d :: cs)) = List.length (d :: cs))
    by apply (Permutation_length (sort_perm (d :: cs))).
  rewrite L.
  destruct (sort (d :: cs)) as [|a l] eqn:E; [discriminate|].
  unfold session_cluster; cbn [map].
  change (Py.add (Py.Int 0) (Py.Int FIRST_COMMIT_BUFFER_MINUTES))
    with (Py.Int FIRST_COMMIT_BUFFER_MINUTES).
  destruct (fold_left _ _ _) as [t n]; reflexivity.
Qed.

(** Clustering reads the timestamps only as points on the time line. *)
Lemma cluster_step_instants g b st p q :
  instant (fst p) = instant (fst q) -> instant (snd p) = instant (snd q) ->
  cluster_step g b st p = cluster_step g b st q.
Proof.
  intros H1 H2; unfold cluster_step, minutes_between, sub.
  rewrite H1, H2; reflexivity.
Qed.

Lemma fold_cluster_instants g b (l1 l2 : list datetime) st :
  map instant l1 = map instant l2 ->
  fold_left (cluster_step g b) (consecutive_pairs l1) st =
  fold_left (cluster_step g b) (consecutive_pairs l2) st.
Proof.
  revert l2 st; induction l1 as [|x l1 IH]; intros [|y l2] st E;
    try discriminate; [reflexivity|].
  simpl in E; injection E as Exy E.
  destruct l1 as [|x' l1], l2 as [|y' l2]; try discriminate; [reflexivity|].
  unfold consecutive_pairs in *; cbn [tl combine fold_left].
  rewrite (cluster_step_instants g b st (x, x') (y, y')); simpl; auto.
  - apply (IH (y' :: l2)); exact E.
  - simpl in E; now injection E.
Qed.

Lemma session_cluster_instants g b (l1 l2 : list datetime) n :
  map instant l1 = map instant l2 ->
  session_cluster g b l1 n = session_cluster g b l2 n.
Proof.
  intros E; unfold session_cluster.
  destruct l1 as [|x l1], l2 as [|y l2]; try discriminate; [reflexivity|].
  rewrite (fold_cluster_instants g b (x :: l1) (y :: l2) _ E); reflexivity.
Qed.

Lemma ascending_perm_instants (l1 l2 : list datetime) :
  ascending l1 -> ascending l2 -> Permutation l1 l2 ->
  map instant l1 = map instant l2.
Proof.
  intros S1 S2 P; apply sorted_perm_eq; auto using ascending_instants.
  now apply Permutation_map.
Qed.

Lemma sessions_bounds g b (ps : list (datetime * datetime)) st :
  snd st <= snd (fold_left (cluster_step g b) ps st)
         <= snd st + Z.of_nat (List.length ps).
Proof.
  revert st; induction ps as [|p ps IH]; intros st; simpl; [lia|].
  specialize (IH (cluster_step g b st p)).
  assert (snd st <= snd (cluster_step g b st p) <= snd st + 1).
  { unfold cluster_step; destruct (PrimFloat.leb _ _); simpl; lia. }
  lia.
Qed.

Lemma consecutive_pairs_length {A : Type} (a : A) (l : list A) :
  List.length (consecutive_pairs (a :: l)) = List.length l.
Proof.
  unfold consecutive_pairs; cbn [tl].
  rewrite length_combine; cbn [List.length]; lia.
Qed.

Example single_commit :
  estimate_time_from_commits [commit_at 10 0] =
  mk_estimate (Py.Float 2.0) 1 1.
Proof. reflexivity. Qed.

Example two_commits_30_minutes_apart :
  estimate_time_from_commits [commit_at 10 0; commit_at 10 30] =
  mk_estimate (Py.Float 2.5) 1 2.
Proof. reflexivity. Qed.

Example two_commits_200_minutes_apart :
  estimate_time_from_commits [commit_at 10 0; commit_at 13 20] =
  mk_estimate (Py.Float 4.0) 2 2.
Proof. reflexivity. Qed.

(** C1. For every list of commits, the estimator computes what the
    specified algorithm computes on the ascending list of their
    timestamps: total minutes start at the buffer and sessions at 1;
    each consecutive pair adds its gap when the gap is at most the
    threshold, and otherwise opens a session and adds a full buffer; the
    result is the total divided by 60 and rounded to one decimal, the
    sessions, and the length of the input.  An empty list gives hours
    0, sessions 0 and commits 0. *)
Theorem estimate_follows_session_algorithm
    (cs : list commit) (sorted : list datetime) :
  Permutation sorted (map timestamp cs) ->
  ascending sorted ->
  estimate_time_from_commits cs =
    session_cluster MAX_COMMIT_DIFF_MINUTES FIRST_COMMIT_BUFFER_MINUTES
                    sorted (Z.of_nat (List.length cs))
  /\ (cs = [] ->
      estimate_time_from_commits cs = mk_estimate (Py.Int 0) 0 0).
Proof.
  intros P S; split.
  - rewrite estimate_as_cluster.
    apply session_cluster_instants, ascending_perm_instants; auto.
    + apply sort_ascending.
    + rewrite P; apply Permutation_map, sort_perm.
  - intros ->; reflexivity.
Qed.

Lemma estimate_follows_session_algorithm_witness :
  estimate_time_from_commits [commit_at 13 20; commit_at 10 0; commit_at 10 30] =
  session_cluster 120 120
    [make 2024 1 8 10 0 0 0; make 2024 1 8 10 30 0 0; make 2024 1 8 13 20 0 0] 3.
Proof.
  apply (estimate_follows_session_algorithm
           [commit_at 13 20; commit_at 10 0; commit_at 10 30]
           [make 2024 1 8 10 0 0 0; make 2024 1 8 10 30 0 0;
            make 2024 1 8 13 20 0 0]).
  - apply Permutation_sym, (Permutation_cons_append [_; _]).
  - repeat constructor; vm_compute; discriminate.
Defined.

(** C9. The estimate does not depend on the order of the commits: a
    list and any permutation of it give the same hours, sessions and
    commit count. *)
Theorem estimate_order_independent (cs cs' : list commit) :
  Permutation cs cs' ->
  estimate_time_from_commits cs = estimate_time_from_commits cs'.
Proof.
  intros P; rewrite !estimate_as_cluster.
  rewrite (Permutation_length P).
  apply session_cluster_instants, ascending_perm_instants;
    try apply sort_ascending.
  apply Permutation_map.
  rewrite (sort_perm cs), (sort_perm cs'); exact P.
Qed.

Lemma estimate_order_independent_witness :
  estimate_time_from_commits [commit_at 13 20; commit_at 10 0; commit_at 10 30] =
  estimate_time_from_commits [commit_at 10 30; commit_at 13 20; commit_at 10 0].
Proof.
  apply estimate_order_independent.
  apply perm_trans with [commit_at 10 0; commit_at 10 30; commit_at 13 20].
  - apply (Permutation_cons_append [_; _]).
  - apply (Permutation_cons_append [_; _]).
Defined.

(** C10. For a non-empty list of commits the number of sessions is at
    least 1 and at most the number of commits. *)
Theorem sessions_between_one_and_commit_count (cs : list commit) :
  cs <> [] ->
  1 <= sessions (estimate_time_from_commits cs) <= Z.of_nat (List.length cs).
Proof.
  intros NE; rewrite estimate_as_cluster.
  assert (L : List.length (sort cs) = List.length cs)
    by apply (Permutation_length (sort_perm cs)).
  destruct (sort cs) as [|a l] eqn:E.
  - destruct cs; [congruence | discriminate].
  - unfold session_cluster; cbn [map sessions].
    pose proof (sessions_bounds MAX_COMMIT_DIFF_MINUTES FIRST_COMMIT_BUFFER_MINUTES
                  (consecutive_pairs (timestamp a :: map timestamp l))
                  (Py.Int FIRST_COMMIT_BUFFER_MINUTES, 1)) as B.
    rewrite consecutive_pairs_length, length_map in B.
    rewrite <- L; cbn [List.length snd] in *; lia.
Qed.

Lemma sessions_between_one_and_commit_count_witness :
  1 <= sessions (estimate_time_from_commits [commit_at 10 0; commit_at 13 20])
    <= 2.
Proof.
  apply (sessions_between_one_and_commit_count
           [commit_at 10 0; commit_at 13 20]).
  discriminate.
Defined.

End CommitSessions.

(** ** The business-hours calculator *)

Section BusinessHours.
Import Datetime IssuesWithTime.

Lemma date_replace (dt : datetime) (h m s us : Z) :
  0 <= h * US_PER_HOUR + m * US_PER_MINUTE + s * US_PER_SECOND + us < US_PER_DAY ->
  date (replace dt h m s us) = date dt.
Proof.
  intros B; unfold date at 1, replace; simpl.
  symmetry; apply Z.div_unique
    with (r := h * US_PER_HOUR + m * US_PER_MINUTE + s * US_PER_SECOND + us).
  - left; exact B.
  - unfold US_PER_DAY, US_PER_HOUR, US_PER_MINUTE, US_PER_SECOND in *; lia.
Qed.

Lemma date_add_days (dt : datetime) (n : Z) :
  date (add_days dt n) = date dt + n.
Proof.
  unfold date, add_days; simpl.
  apply Z.div_add; unfold US_PER_DAY, US_PER_SECOND; lia.
Qed.

Lemma date_next_day (dt : datetime) : date (next_day dt) = date dt + 1.
Proof.
  unfold next_day; rewrite date_replace, date_add_days; [reflexivity|].
  unfold US_PER_DAY, US_PER_HOUR, US_PER_MINUTE, US_PER_SECOND; lia.
Qed.

Lemma instant_max_ge (a b : datetime) : instant a <= instant (max a b).
Proof.
  unfold max, gtb; destruct (Z.ltb_spec (instant a) (instant b)); lia.
Qed.

Lemma instant_min_le (a b : datetime) : instant (min a b) <= instant a.
Proof.
  unfold min, ltb; destruct (Z.ltb_spec (instant b) (instant a)); lia.
Qed.

Lemma while_loop_unroll (n fuel : nat) (s e cur : datetime) (total : float) :
  Z.to_nat (date e - date cur + 1) = n ->
  (n < fuel)%nat ->
  while_loop fuel s e cur total =
  Returns (fold_left (fun t c => day_body s e c t) (cursors n cur) total).
Proof.
  revert fuel cur total; induction n as [|n IH]; intros fuel cur total Hn Hf;
    (destruct fuel as [|fuel]; [lia|]); cbn [while_loop cursors fold_left].
  - destruct (Z.leb_spec (date cur) (date e)); [lia | reflexivity].
  - destruct (Z.leb_spec (date cur) (date e)); [|lia].
    apply IH; [rewrite date_next_day|]; lia.
Qed.

Lemma cursors_dates (n : nat) (cur : datetime) :
  map date (cursors n cur) = map (fun k => date cur + Z.of_nat k) (seq 0 n).
Proof.
  revert cur; induction n as [|n IH]; intros cur; [reflexivity|].
  cbn [cursors map seq]; f_equal; [lia|].
  rewrite IH, date_next_day, <- seq_shift, map_map.
  apply map_ext; intros k; lia.
Qed.

(** Without a swap, the calculator is the loop body folded over the
    visited days, each day of the range once. *)
Lemma calculate_business_hours_unrolled (s e : datetime) :
  instant s <= instant e ->
  calculate_business_hours (Some s) (Some e) =
  Returns (fold_left (fun t c => day_body s e c t) (visited s e) 0%float).
Proof.
  intros L; unfold calculate_business_hours, calculate_business_hours_fuel.
  unfold gtb; destruct (Z.ltb_spec (instant e) (instant s)); [lia|].
  apply while_loop_unroll; [reflexivity|].
  unfold enough_fuel; lia.
Qed.

Lemma visited_dates (s e : datetime) :
  map date (visited s e) = day_range (date s) (date e).
Proof. apply cursors_dates. Qed.

(** The calculator returns: the fuel it is given is enough. *)
Lemma calculate_business_hours_returns (a b : option datetime) :
  exists h, calculate_business_hours a b = Returns h.
Proof.
  destruct a as [a|], b as [b|]; try (eexists; reflexivity).
  unfold calculate_business_hours, calculate_business_hours_fuel.
  destruct (gtb a b); eexists; (apply while_loop_unroll; [reflexivity|]);
    unfold enough_fuel; lia.
Qed.

(** More fuel does not change what the calculator returns. *)
Lemma calculate_business_hours_fuel_enough (fuel : nat) (a b : option datetime) :
  (enough_fuel a b <= fuel)%nat ->
  calculate_business_hours_fuel fuel a b = calculate_business_hours a b.
Proof.
  intros F; destruct a as [a|], b as [b|]; try reflexivity.
  unfold calculate_business_hours, calculate_business_hours_fuel.
  unfold enough_fuel in *.
  destruct (gtb a b);
    rewrite (while_loop_unroll _ fuel) by (reflexivity || lia);
    symmetry; apply while_loop_unroll; (reflexivity || lia).
Qed.

Lemma returns_neq (a b : float) :
  Prim2SF a <> Prim2SF b -> Returns a <> Returns b.
Proof.
  intros H E; apply H.
  exact (f_equal (fun o => match o with
                           | Returns h => Prim2SF h
                           | OutOfFuel => S754_nan
                           end) E).
Qed.

Example monday_full_window :
  calculate_business_hours (Some (pst 2024 1 8 7 0)) (Some (pst 2024 1 8 19 0))
  = Returns 12.0%float.
Proof. reflexivity. Qed.

(** C5. Without a swap the calculator adds up the loop body over the
    days from the date of [start] to the date of [end], each once; on a
    weekend day the body leaves the total unchanged, unless the day is
    the date of [start] or of [end], where it adds a flat 4 hours whatever
    the time span within that day. *)
Theorem weekend_day_contribution (s e : datetime) :
  instant s <= instant e ->
  calculate_business_hours (Some s) (Some e) =
    Returns (fold_left (fun total c => day_body s e c total) (visited s e) 0%float)
  /\ map date (visited s e) = day_range (date s) (date e)
  /\ forall c total,
       In c (visited s e) -> is_business_day c = false ->
       day_body s e c total =
       if (date c =? date s) || (date c =? date e)
       then PrimFloat.add total 4.0%float
       else total.
Proof.
  intros L; split; [|split].
  - now apply calculate_business_hours_unrolled.
  - apply visited_dates.
  - intros c total _ W; unfold day_body; rewrite W; reflexivity.
Qed.

Lemma weekend_day_contribution_witness :
  instant (pst 2024 1 6 10 0) <= instant (pst 2024 1 9 12 0)
  /\ In (pst 2024 1 7 0 0) (visited (pst 2024 1 6 10 0) (pst 2024 1 9 12 0))
  /\ is_business_day (pst 2024 1 7 0 0) = false
  /\ day_body (pst 2024 1 6 10 0) (pst 2024 1 9 12 0) (pst 2024 1 7 0 0) 4.0%float
     = 4.0%float
  /\ day_body (pst 2024 1 6 10 0) (pst 2024 1 9 12 0) (pst 2024 1 6 10 0) 0.0%float
     = 4.0%float.
Proof.
  assert (L : instant (pst 2024 1 6 10 0) <= instant (pst 2024 1 9 12 0))
    by (vm_compute; discriminate).
  assert (I : In (pst 2024 1 7 0 0)
                 (visited (pst 2024 1 6 10 0) (pst 2024 1 9 12 0)))
    by (vm_compute; tauto).
  assert (J : In (pst 2024 1 6 10 0)
                 (visited (pst 2024 1 6 10 0) (pst 2024 1 9 12 0)))
    by (vm_compute; tauto).
  destruct (weekend_day_contribution
              (pst 2024 1 6 10 0) (pst 2024 1 9 12 0) L) as [_ [_ W]].
  split; [exact L | split; [exact I | split; [reflexivity | split]]].
  - exact (W (pst 2024 1 7 0 0) 4.0%float I eq_refl).
  - exact (W (pst 2024 1 6 10 0) 0.0%float J eq_refl).
Defined.

(** Saturday 10:00 to Tuesday 12:00: 4 flat hours for the Saturday the
    span starts on, nothing for the Sunday inside it, 12 and 5 hours for
    Monday and Tuesday. *)
Example weekend_start_span :
  visited (pst 2024 1 6 10 0) (pst 2024 1 9 12 0) =
    [pst 2024 1 6 10 0; pst 2024 1 7 0 0; pst 2024 1 8 0 0; pst 2024 1 9 0 0]
  /\ calculate_business_hours (Some (pst 2024 1 6 10 0)) (Some (pst 2024 1 9 12 0))
     = Returns 21.0%float.
Proof. split; reflexivity. Qed.

(** C2. Monday 10:00 to Monday 22:00: the window of the day ends at
    19:00 although the end instant lies after it, so 9 hours are counted
    and the three late hours are dropped.  Monday 08:00 to Tuesday 22:00:
    Tuesday, the last day, counts 07:00 to 19:00 only, 11 + 12 hours in
    all.  A span that starts late is extended: Monday 20:00 to Monday
    22:00 counts its 2 hours. *)
Theorem late_end_not_extended :
  calculate_business_hours (Some (pst 2024 1 8 10 0)) (Some (pst 2024 1 8 22 0))
    = Returns 9.0%float
  /\ get_business_hours_in_day (pst 2024 1 8 10 0)
     = (pst 2024 1 8 7 0, pst 2024 1 8 19 0)
  /\ calculate_business_hours (Some (pst 2024 1 8 8 0)) (Some (pst 2024 1 9 22 0))
     = Returns 23.0%float
  /\ calculate_business_hours (Some (pst 2024 1 8 20 0)) (Some (pst 2024 1 8 22 0))
     = Returns 2.0%float.
Proof. repeat split; reflexivity. Qed.

(** The window is extended only through the cursor of the loop, which
    is at midnight on every day after the first. *)
Lemma later_days_window (dt : datetime) :
  get_business_hours_in_day (next_day dt) =
  (replace (next_day dt) 7 0 0 0, replace (next_day dt) 19 0 0 0).
Proof.
  unfold get_business_hours_in_day.
  replace (hour (next_day dt)) with 0; [reflexivity|].
  unfold hour, next_day, replace; cbn [wall].
  rewrite date_add_days.
  replace ((date dt + 1) * US_PER_DAY + 0 * US_PER_HOUR + 0 * US_PER_MINUTE
           + 0 * US_PER_SECOND + 0) with ((date dt + 1) * US_PER_DAY) by lia.
  rewrite Z.mod_mul by (unfold US_PER_DAY, US_PER_SECOND; lia).
  reflexivity.
Qed.

(** C4, on the code.  A Saturday: the calculator applied to one and the
    same instant returns 4, not 0. *)
Lemma same_instant_on_weekend_not_zero :
  calculate_business_hours (Some (pst 2024 1 6 12 0)) (Some (pst 2024 1 6 12 0))
    = Returns 4.0%float
  /\ calculate_business_hours (Some (pst 2024 1 6 12 0)) (Some (pst 2024 1 6 12 0))
     <> Returns 0.0%float.
Proof.
  split; [reflexivity|].
  change (Returns 4.0%float <> Returns 0.0%float).
  apply returns_neq; vm_compute; discriminate.
Qed.

(** C4, amended.  For one and the same instant [t] the calculator
    returns 0 when [t] falls on a business day and the flat 4 hours when
    it falls on a weekend day; when either input is missing it returns
    0. *)
Theorem degenerate_cases (t : datetime) (x : option datetime) :
  calculate_business_hours (Some t) (Some t) =
    Returns (if is_business_day t then 0.0%float else 4.0%float)
  /\ calculate_business_hours None x = Returns 0.0%float
  /\ calculate_business_hours x None = Returns 0.0%float.
Proof.
  split; [|split; [reflexivity | destruct x; reflexivity]].
  rewrite calculate_business_hours_unrolled by lia.
  unfold visited.
  replace (date t - date t + 1) with 1 by lia.
  change (Z.to_nat 1) with 1%nat; cbn [cursors fold_left].
  unfold day_body.
  destruct (is_business_day t).
  - destruct (get_business_hours_in_day t) as [biz_start biz_end].
    cbv beta iota zeta; rewrite Z.eqb_refl.
    pose proof (instant_max_ge t biz_start).
    pose proof (instant_min_le t biz_end).
    unfold ltb.
    destruct (Z.ltb_spec (instant (max t biz_start)) (instant (min t biz_end)));
      [lia | reflexivity].
  - rewrite Z.eqb_refl; reflexivity.
Qed.

(** C6, on the code.  Friday 18:00 to the following Monday 08:00 does
    not give 7 hours. *)
Lemma friday_evening_to_monday_morning_not_7 :
  calculate_business_hours (Some (pst 2024 1 5 18 0)) (Some (pst 2024 1 8 8 0))
  <> Returns 7.0%float.
Proof.
  change (Returns 2.0%float <> Returns 7.0%float).
  apply returns_neq; vm_compute; discriminate.
Qed.

Lemma at_hour_date (d h off : Z) :
  0 <= h < 24 -> date (at_hour d h off) = d.
Proof.
  intros H; unfold date, at_hour; cbn [wall].
  symmetry; apply Z.div_unique with (r := h * US_PER_HOUR);
    unfold US_PER_DAY, US_PER_HOUR, US_PER_SECOND; lia.
Qed.

Lemma at_hour_hour (d h off : Z) :
  0 <= h < 24 -> hour (at_hour d h off) = h.
Proof.
  intros H; unfold hour, at_hour; cbn [wall].
  replace ((d * US_PER_DAY + h * US_PER_HOUR) mod US_PER_DAY)
    with (h * US_PER_HOUR).
  - apply Z.div_mul; unfold US_PER_HOUR, US_PER_SECOND; lia.
  - apply Z.mod_unique with (q := d);
      unfold US_PER_DAY, US_PER_HOUR, US_PER_SECOND; lia.
Qed.

Lemma at_hour_replace (d h h' off : Z) :
  0 <= h < 24 -> replace (at_hour d h off) h' 0 0 0 = at_hour d h' off.
Proof.
  intros H; unfold replace; rewrite at_hour_date by assumption.
  unfold at_hour; cbn [utcoffset]; f_equal; lia.
Qed.

Lemma at_hour_next_day (d h off : Z) :
  0 <= h < 24 -> next_day (at_hour d h off) = at_hour (d + 1) 0 off.
Proof.
  intros H; unfold next_day, replace.
  rewrite date_add_days, at_hour_date by assumption.
  unfold at_hour, add_days; cbn [utcoffset]; f_equal; lia.
Qed.

Lemma at_hour_window (d h off : Z) :
  0 <= h < 19 ->
  get_business_hours_in_day (at_hour d h off) = (at_hour d 7 off, at_hour d 19 off).
Proof.
  intros H; unfold get_business_hours_in_day.
  rewrite at_hour_hour, !at_hour_replace by lia.
  destruct (Z.leb_spec 19 h); [lia | reflexivity].
Qed.

Lemma at_hour_instant (d h off : Z) :
  instant (at_hour d h off) = d * US_PER_DAY + h * US_PER_HOUR - off.
Proof. reflexivity. Qed.

Lemma at_hour_business_day (d h off : Z) :
  0 <= h < 24 ->
  is_business_day (at_hour d h off) = ((d + 3) mod 7 <? 5).
Proof.
  intros H; unfold is_business_day, weekday.
  rewrite at_hour_date by assumption; reflexivity.
Qed.

(** C6, amended.  For every Friday, with 18:00 of that day and 08:00 of
    the following Monday written with one and the same UTC offset, the
    calculator gives 2 hours: Friday's window is not extended, 18:00
    being before 19:00, and counts the hour from 18:00 to 19:00; Saturday
    and Sunday, not being boundary days, add nothing; Monday counts the
    hour from 07:00 to 08:00. *)
Theorem friday_evening_to_monday_morning (d off : Z) :
  weekday (at_hour d 18 off) = 4 ->
  let fri := at_hour d 18 off in
  let mon := at_hour (d + 3) 8 off in
  calculate_business_hours (Some fri) (Some mon) = Returns 2.0%float
  /\ weekday mon = 0
  /\ visited fri mon =
       [fri; at_hour (d + 1) 0 off; at_hour (d + 2) 0 off; at_hour (d + 3) 0 off]
  /\ get_business_hours_in_day fri = (at_hour d 7 off, at_hour d 19 off)
  /\ (forall total,
        day_body fri mon fri total = PrimFloat.add total 1.0%float)
  /\ (forall total, day_body fri mon (at_hour (d + 1) 0 off) total = total)
  /\ (forall total, day_body fri mon (at_hour (d + 2) 0 off) total = total)
  /\ (forall total,
        day_body fri mon (at_hour (d + 3) 0 off) total
        = PrimFloat.add total 1.0%float).
Proof.
  intros F fri mon.
  unfold weekday in F; rewrite at_hour_date in F by lia.
  assert (V : visited fri mon =
              [fri; at_hour (d + 1) 0 off; at_hour (d + 2) 0 off;
               at_hour (d + 3) 0 off]).
  { unfold visited, fri, mon; rewrite !at_hour_date by lia.
    replace (d + 3 - d + 1) with 4 by lia.
    change (Z.to_nat 4) with 4%nat; cbn [cursors].
    rewrite at_hour_next_day by lia.
    rewrite at_hour_next_day by lia.
    rewrite at_hour_next_day by lia.
    replace (d + 1 + 1) with (d + 2) by lia.
    replace (d + 2 + 1) with (d + 3) by lia.
    reflexivity. }
  assert (W : get_business_hours_in_day fri = (at_hour d 7 off, at_hour d 19 off))
    by (apply at_hour_window; lia).
  assert (Dfri : forall total,
             day_body fri mon fri total = PrimFloat.add total 1.0%float).
  { intros total; unfold day_body; rewrite W.
    unfold fri at 1; rewrite at_hour_business_day by lia.
    destruct (Z.ltb_spec ((d + 3) mod 7) 5); [|lia].
    unfold fri, mon; rewrite !at_hour_date by lia.
    rewrite Z.eqb_refl.
    destruct (Z.eqb_spec d (d + 3)); [lia|].
    assert (M : max (at_hour d 18 off) (at_hour d 7 off) = at_hour d 18 off).
    { unfold max, gtb; rewrite !at_hour_instant.
      destruct (Z.ltb_spec (d * US_PER_DAY + 18 * US_PER_HOUR - off)
                           (d * US_PER_DAY + 7 * US_PER_HOUR - off));
        [unfold US_PER_HOUR, US_PER_SECOND in *; lia | reflexivity]. }
    rewrite M; unfold ltb, sub; rewrite !at_hour_instant.
    destruct (Z.ltb_spec (d * US_PER_DAY + 18 * US_PER_HOUR - off)
                         (d * US_PER_DAY + 19 * US_PER_HOUR - off));
      [|unfold US_PER_HOUR, US_PER_SECOND in *; lia].
    replace (d * US_PER_DAY + 19 * US_PER_HOUR - off
             - (d * US_PER_DAY + 18 * US_PER_HOUR - off))
      with 3600000000 by (unfold US_PER_HOUR, US_PER_SECOND; lia).
    reflexivity. }
  assert (Dweekend : forall k total,
             k = 1 \/ k = 2 ->
             day_body fri mon (at_hour (d + k) 0 off) total = total).
  { intros k total K; unfold day_body.
    rewrite at_hour_business_day by lia.
    destruct (Z.ltb_spec ((d + k + 3) mod 7) 5);
      [Z.div_mod_to_equations; lia|].
    unfold fri, mon; rewrite !at_hour_date by lia.
    destruct (Z.eqb_spec (d + k) d); [lia|].
    destruct (Z.eqb_spec (d + k) (d + 3)); [lia | reflexivity]. }
  assert (Dmon : forall total,
             day_body fri mon (at_hour (d + 3) 0 off) total
             = PrimFloat.add total 1.0%float).
  { intros total; unfold day_body.
    rewrite at_hour_business_day, at_hour_window by lia.
    destruct (Z.ltb_spec ((d + 3 + 3) mod 7) 5);
      [|Z.div_mod_to_equations; lia].
    unfold fri, mon; rewrite !at_hour_date by lia.
    rewrite Z.eqb_refl.
    destruct (Z.eqb_spec (d + 3) d); [lia|].
    assert (M : min (at_hour (d + 3) 8 off) (at_hour (d + 3) 19 off)
                = at_hour (d + 3) 8 off).
    { unfold min, ltb; rewrite !at_hour_instant.
      destruct (Z.ltb_spec ((d + 3) * US_PER_DAY + 19 * US_PER_HOUR - off)
                           ((d + 3) * US_PER_DAY + 8 * US_PER_HOUR - off));
        [unfold US_PER_HOUR, US_PER_SECOND in *; lia | reflexivity]. }
    rewrite M; unfold ltb, sub; rewrite !at_hour_instant.
    destruct (Z.ltb_spec ((d + 3) * US_PER_DAY + 7 * US_PER_HOUR - off)
                         ((d + 3) * US_PER_DAY + 8 * US_PER_HOUR - off));
      [|unfold US_PER_HOUR, US_PER_SECOND in *; lia].
    replace ((d + 3) * US_PER_DAY + 8 * US_PER_HOUR - off
             - ((d + 3) * US_PER_DAY + 7 * US_PER_HOUR - off))
      with 3600000000 by (unfold US_PER_HOUR, US_PER_SECOND; lia).
    reflexivity. }
  split; [|split; [|split; [exact V | split; [exact W | split; [exact Dfri|]]]]].
  - rewrite calculate_business_hours_unrolled
      by (unfold fri, mon; rewrite !at_hour_instant;
          unfold US_PER_DAY, US_PER_HOUR, US_PER_SECOND; lia).
    rewrite V; cbn [fold_left].
    rewrite Dfri, (Dweekend 1), (Dweekend 2), Dmon by lia.
    reflexivity.
  - unfold weekday, mon; rewrite at_hour_date by lia.
    Z.div_mod_to_equations; lia.
  - split; [intros; apply Dweekend; lia|].
    split; [intros; apply Dweekend; lia | exact Dmon].
Qed.

Lemma friday_evening_to_monday_morning_witness :
  weekday (pst 2024 1 5 18 0) = 4
  /\ calculate_business_hours (Some (pst 2024 1 5 18 0)) (Some (pst 2024 1 8 8 0))
     = Returns 2.0%float.
Proof.
  split; [reflexivity|].
  apply (friday_evening_to_monday_morning 19727 (-8 * US_PER_HOUR)).
  reflexivity.
Defined.

(** Over a weekend on which the zone offset changes the sum differs:
    the loop keeps the offset of the start for its windows, so Monday's
    window opens an hour off the end's clock. *)
Example friday_to_monday_across_offset_change :
  calculate_business_hours (Some (make 2024 3 8 18 0 0 (-8)))
                           (Some (make 2024 3 11 8 0 0 (-7)))
    = Returns 1.0%float
  /\ calculate_business_hours (Some (make 2024 11 1 18 0 0 (-7)))
                              (Some (make 2024 11 4 8 0 0 (-8)))
     = Returns 3.0%float.
Proof. split; reflexivity. Qed.

End BusinessHours.

(** ** The timeline analyzer *)

Section TimelineAnalyzer.
Import Datetime IssuesWithTime.

(** The analyzer returns, with the two metrics read off the anchors that
    the scan of the events leaves. *)
Lemma analyze_issue_timing_returns (i : issue) (timeline issue_events : list event) :
  exists r, analyze_issue_timing i timeline issue_events = Returns r.
Proof.
  unfold analyze_issue_timing.
  destruct (calculate_business_hours_returns (created_at i) (closed_at i)) as [h ->].
  cbn [bind].
  destruct (fold_left _ _ _) as [[first_response assigned_at] labeled_at].
  destruct first_response as [f|], assigned_at as [a|]; cbn [bind];
    try destruct (calculate_business_hours_returns (created_at i) (Some f)) as [hf ->];
    try destruct (calculate_business_hours_returns (created_at i) (Some a)) as [ha ->];
    cbn [bind]; eexists; reflexivity.
Qed.

(** A metric that was computed as 0 is reported as absent. *)
Lemma report_metric_zero : report_metric (Some 0.0%float) = None.
Proof. reflexivity. Qed.

(** C3, on the code.  The scan finds a first response and an
    assignment, the calculator gives 0 for both, and the analyzer reports
    both metrics as absent. *)
Theorem instant_response_reported_absent :
  fold_left (scan_event instant_issue) instant_timeline (None, None, None)
    = (Some (pst 2024 1 8 10 0), Some (pst 2024 1 8 10 0), None)
  /\ calculate_business_hours (created_at instant_issue) (Some (pst 2024 1 8 10 0))
     = Returns 0.0%float
  /\ exists r,
       analyze_issue_timing instant_issue instant_timeline [] = Returns r
       /\ time_to_first_response_hours r = None
       /\ time_to_assignment_hours r = None.
Proof.
  split; [reflexivity | split; [reflexivity|]].
  eexists; split; [reflexivity | split; reflexivity].
Qed.

End TimelineAnalyzer.

(** ** The metadata fallback estimator *)

Section MetadataFallback.
Import Fallback.
Local Open Scope string_scope.

Lemma dict_get_find {V : Type} (d : list (string * V)) (k : string) (default : V) :
  Py.dict_get d k default =
  match find_entry d k with
  | Some v => v
  | None => default
  end.
Proof.
  unfold find_entry; induction d as [|[k' v] d IH]; simpl; [reflexivity|].
  destruct (String.eqb k' k); auto.
Qed.

Lemma base_hours_of_spec (category complexity : string) :
  base_hours_of category complexity = spec_base_hours category complexity.
Proof.
  unfold base_hours_of, spec_base_hours.
  rewrite !dict_get_find.
  destruct (find_entry DEFAULT_DEV_HOURS category); reflexivity.
Qed.

Lemma multiplier_of_spec (title : string) :
  multiplier_of (Py.lower title) = spec_multiplier title.
Proof.
  unfold multiplier_of, spec_multiplier, spec_rules, scale_if.
  cbn [filter fst snd].
  destruct (Py.contains "refactor" _ || Py.contains "restructure" _);
  destruct (Py.contains "test" _ || Py.contains "testing" _);
  destruct (Py.contains "fix" _ && negb (Py.contains "hotfix" _));
  destruct (Py.contains "update" _ || Py.contains "enhance" _);
  destruct (Py.contains "mvp" _);
  destruct (Py.contains "working" _ || Py.contains "mid" _);
  reflexivity.
Qed.

Lemma forallb_bools (f : bool -> bool) (b : bool) :
  forallb f bools = true -> f b = true.
Proof.
  unfold bools; simpl; rewrite !andb_true_iff; intros [? [? _]].
  destruct b; assumption.
Qed.

Lemma dict_get_in {V : Type} (d : list (string * V)) (k : string) (default : V) :
  Py.dict_get d k default = default \/
  exists k', In (k', Py.dict_get d k default) d.
Proof.
  induction d as [|[k' v] d IH]; simpl; [now left|].
  destruct (String.eqb k' k).
  - right; exists k'; now left.
  - destruct IH as [->|[k'' H]]; [now left|].
    right; exists k''; now right.
Qed.

Lemma base_hours_in (category complexity : string) :
  In (base_hours_of category complexity) hours_values.
Proof.
  unfold base_hours_of, hours_values.
  set (maintenance := Py.dict_get DEFAULT_DEV_HOURS "Maintenance" []).
  assert (M : In ("Maintenance", maintenance) DEFAULT_DEV_HOURS)
    by (vm_compute; tauto).
  assert (R : exists c, In (c, Py.dict_get DEFAULT_DEV_HOURS category maintenance)
                           DEFAULT_DEV_HOURS).
  { destruct (dict_get_in DEFAULT_DEV_HOURS category maintenance) as [->|H]; eauto. }
  destruct R as [c R].
  set (row := Py.dict_get DEFAULT_DEV_HOURS category maintenance) in *.
  destruct (dict_get_in row complexity 6%Z) as [->|[k H]]; [now left|].
  right; apply in_flat_map; exists (c, row); split; [exact R|].
  cbn [snd]; apply in_map_iff; exists (k, Py.dict_get row complexity 6%Z); auto.
Qed.

Lemma commits_defined_all : forallb commits_defined_for hours_values = true.
Proof. vm_compute; reflexivity. Qed.

(** The estimator returns: [round] never raises on its hours. *)
Lemma estimate_time_from_metadata_returns (p : pr) :
  exists n,
    estimate_time_from_metadata p =
    Some (mk_estimate
            (Py.round_ndigits
               (PrimFloat.mul
                  (Py.float_of_int
                     (base_hours_of (get (category p) "Maintenance")
                                    (get (complexity p) "Small")))
                  (multiplier_of (Py.lower (get (title p) "")))) 1)
            (Py.dict_get [("Small", 1); ("Medium", 2); ("Large", 3)]%Z
                         (get (complexity p) "Small") 1%Z)
            (Py.max_int 1 n)
            "metadata_based" "low").
Proof.
  unfold estimate_time_from_metadata.
  set (base := base_hours_of _ _).
  set (t := Py.lower _).
  pose proof (base_hours_in (get (category p) "Maintenance")
                            (get (complexity p) "Small")) as B.
  fold base in B.
  pose proof commits_defined_all as A.
  rewrite forallb_forall in A; specialize (A _ B).
  unfold commits_defined_for in A.
  set (b1 := Py.contains "refactor" t || Py.contains "restructure" t).
  set (b2 := Py.contains "test" t || Py.contains "testing" t).
  set (b3 := Py.contains "fix" t && negb (Py.contains "hotfix" t)).
  set (b4 := Py.contains "update" t || Py.contains "enhance" t).
  set (b5 := Py.contains "mvp" t).
  set (b6 := Py.contains "working" t || Py.contains "mid" t).
  apply forallb_bools with (b := b1) in A.
  apply forallb_bools with (b := b2) in A.
  apply forallb_bools with (b := b3) in A.
  apply forallb_bools with (b := b4) in A.
  apply forallb_bools with (b := b5) in A.
  apply forallb_bools with (b := b6) in A.
  change (multiplier_of t) with (multiplier_from b1 b2 b3 b4 b5 b6).
  unfold commits_defined in A.
  destruct (Py.round_int _) as [n|] eqn:E; [|discriminate].
  exists n; reflexivity.
Qed.

Lemma prefix_iff (n h : string) :
  String.prefix n h = true <-> exists post, h = n ++ post.
Proof.
  revert h; induction n as [|c n IH]; intros h.
  - split; [intros _; now exists h | intros _; destruct h; reflexivity].
  - destruct h as [|c' h]; simpl;
      [split; [discriminate | intros [? ?]; discriminate]|].
    destruct (Ascii.ascii_dec c c') as [->|N].
    + rewrite IH; split; intros [post E]; exists post; congruence.
    + split; [discriminate | intros [post E]; congruence].
Qed.

Lemma contains_unfold (n h : string) :
  Py.contains n h =
  if String.prefix n h then true
  else match h with
       | EmptyString => false
       | String _ h' => Py.contains n h'
       end.
Proof. destruct h; reflexivity. Qed.

(** [needle in hay] holds exactly when [needle] occurs in [hay]. *)
Lemma contains_iff (n h : string) :
  Py.contains n h = true <-> exists pre post, h = pre ++ n ++ post.
Proof.
  induction h as [|c h IH]; rewrite contains_unfold.
  - destruct (String.prefix n "") eqn:P.
    + apply prefix_iff in P; destruct P as [post E].
      split; [intros _; now exists "", post | reflexivity].
    + split; [discriminate|]. intros [pre [post E]].
      destruct pre; [|discriminate]. simpl in E.
      assert (String.prefix n "" = true) by (apply prefix_iff; eauto).
      congruence.
  - destruct (String.prefix n (String c h)) eqn:P.
    + apply prefix_iff in P; destruct P as [post E].
      split; [intros _; now exists "", post | reflexivity].
    + rewrite IH; split; intros [pre [post E]].
      * exists (String c pre), post; simpl; congruence.
      * destruct pre as [|c' pre].
        -- assert (String.prefix n (String c h) = true)
             by (apply prefix_iff; eauto).
           congruence.
        -- exists pre, post; simpl in E; congruence.
Qed.

(** C7. For every category, complexity and title the estimator returns,
    and its hours are the looked-up base hours (the default category for
    an unknown category, the default hours for an unknown complexity)
    times the factor of every rule that matches the lower-cased title,
    rounded to one decimal.  For "Bug_Fix", "Small", "Hotfix: fix login"
    the rule for "fix" does not apply, no rule does, and the hours are
    4.0. *)
Theorem metadata_estimate_follows_rules (category complexity title : string) :
  (exists r,
     estimate_time_from_metadata
       (mk_pr (Some category) (Some complexity) (Some title)) = Some r
     /\ estimated_hours r = spec_estimated_hours category complexity title)
  /\ Py.contains "fix" (Py.lower "Hotfix: fix login") = true
  /\ Py.contains "hotfix" (Py.lower "Hotfix: fix login") = true
  /\ filter (fun rule => fst rule (Py.lower "Hotfix: fix login")) spec_rules = []
  /\ spec_base_hours "Bug_Fix" "Small" = 4%Z
  /\ exists r,
       estimate_time_from_metadata
         (mk_pr (Some "Bug_Fix") (Some "Small") (Some "Hotfix: fix login")) = Some r
       /\ estimated_hours r = 4.0%float.
Proof.
  split; [|repeat split; try reflexivity; eexists; split; reflexivity].
  destruct (estimate_time_from_metadata_returns
              (mk_pr (Some category) (Some complexity) (Some title))) as [n E].
  eexists; split; [exact E|].
  cbn [estimated_hours Fallback.category Fallback.complexity Fallback.title get].
  unfold spec_estimated_hours.
  now rewrite base_hours_of_spec, multiplier_of_spec.
Qed.

(** C8, on the code.  The tag of a result is not "metadata". *)
Lemma method_tag_not_metadata :
  exists r,
    estimate_time_from_metadata
      (mk_pr (Some "Bug_Fix") (Some "Small") (Some "Hotfix: fix login")) = Some r
    /\ method r <> "metadata".
Proof. eexists; split; [reflexivity | discriminate]. Qed.

(** C8, amended.  For every input the estimator returns a result tagged
    with the method "metadata_based" and the confidence "low". *)
Theorem metadata_result_tags (p : pr) :
  exists r,
    estimate_time_from_metadata p = Some r
    /\ method r = "metadata_based"
    /\ confidence r = "low".
Proof.
  destruct (estimate_time_from_metadata_returns p) as [n E].
  eexists; split; [exact E | split; reflexivity].
Qed.

End MetadataFallback.

(** * Further properties *)

(** ** The commit-session estimator: the sort and the sessions *)

Section CommitSessionsMore.
Import Datetime EstimatePrTime.

Lemma insert_keeps_equal_keys (c : commit) (l : list commit) (k : Z) :
  filter (fun x => sort_key x =? k) (insert c l) =
  filter (fun x => sort_key x =? k) (c :: l).
Proof.
  induction l as [|c' l IH]; [reflexivity|].
  cbn [insert]; unfold ltb; fold (sort_key c') (sort_key c).
  destruct (Z.ltb_spec (sort_key c') (sort_key c)) as [L|L]; [|reflexivity].
  cbn [filter] in *; rewrite IH.
  destruct (Z.eqb_spec (sort_key c) k), (Z.eqb_spec (sort_key c') k);
    try reflexivity; lia.
Qed.

(** X1. The sort of the commits gives a permutation of them in
    ascending order of timestamp, and it is stable: the commits of any
    one instant stay in the order they came in. *)
Theorem sort_stable_ascending_permutation (cs : list commit) :
  Permutation (sort cs) cs
  /\ ascending (map timestamp (sort cs))
  /\ forall k, filter (fun c => sort_key c =? k) (sort cs) =
               filter (fun c => sort_key c =? k) cs.
Proof.
  split; [apply sort_perm | split; [apply sort_ascending|]].
  intros k; induction cs as [|c cs IH]; [reflexivity|].
  cbn [sort]; rewrite insert_keeps_equal_keys.
  cbn [filter]; rewrite IH; reflexivity.
Qed.

Lemma sorted_keys (cs : list commit) :
  Sorted Z.le (map sort_key (sort cs)).
Proof.
  rewrite <- (map_map timestamp instant).
  apply ascending_instants, sort_ascending.
Qed.

(** X2. The estimate reads the commits only through the instants of
    their timestamps: two lists whose timestamps are the same instants,
    in any order and in whatever zone each is written, with whatever sha,
    author and message, get the same estimate. *)
Theorem estimate_depends_on_instants_only (cs cs' : list commit) :
  Permutation (map sort_key cs) (map sort_key cs') ->
  estimate_time_from_commits cs = estimate_time_from_commits cs'.
Proof.
  intros P; rewrite !estimate_as_cluster.
  assert (L : List.length cs = List.length cs')
    by (rewrite <- (length_map sort_key cs), <- (length_map sort_key cs');
        apply Permutation_length, P).
  rewrite L; apply session_cluster_instants.
  rewrite !(map_map timestamp instant).
  apply sorted_perm_eq; try apply sorted_keys.
  rewrite (Permutation_map sort_key (sort_perm cs)), P.
  apply Permutation_sym, Permutation_map, sort_perm.
Qed.

Lemma estimate_depends_on_instants_only_witness :
  estimate_time_from_commits
    [mk_commit "1f0a" (make 2024 1 8 10 0 0 0) "ann" "start";
     mk_commit "77c2" (make 2024 1 8 10 30 0 0) "ann" "more"] =
  estimate_time_from_commits
    [mk_commit "beef" (make 2024 1 8 12 30 0 2) "bob" "x";
     mk_commit "cafe" (make 2024 1 8 5 0 0 (-5)) "bob" "y"].
Proof.
  apply estimate_depends_on_instants_only.
  apply perm_swap.
Defined.

Lemma sessions_count (ps : list (datetime * datetime)) st :
  snd (fold_left (cluster_step MAX_COMMIT_DIFF_MINUTES FIRST_COMMIT_BUFFER_MINUTES)
                 ps st) =
  snd st + Z.of_nat (List.length (filter opens_session ps)).
Proof.
  revert st; induction ps as [|p ps IH]; intros st; cbn [fold_left filter].
  - simpl; lia.
  - rewrite IH; unfold cluster_step, opens_session.
    destruct (PrimFloat.leb _ _); cbn [negb snd List.length]; lia.
Qed.

(** X3. For a non-empty list the number of sessions is one more than
    the number of consecutive pairs of the sorted timestamps whose gap in
    minutes is over the threshold. *)
Theorem sessions_are_gaps_plus_one (cs : list commit) :
  cs <> [] ->
  sessions (estimate_time_from_commits cs) =
  1 + Z.of_nat (List.length
                  (filter opens_session
                          (consecutive_pairs (map timestamp (sort cs))))).
Proof.
  intros NE; rewrite estimate_as_cluster.
  destruct (sort cs) as [|a l] eqn:E.
  - pose proof (Permutation_length (sort_perm cs)) as L; rewrite E in L.
    destruct cs; [congruence | discriminate].
  - unfold session_cluster; cbn [map sessions].
    rewrite sessions_count; reflexivity.
Qed.

Lemma sessions_are_gaps_plus_one_witness :
  sessions (estimate_time_from_commits
              [commit_at 13 20; commit_at 10 0; commit_at 10 30; commit_at 18 0]) =
  1 + Z.of_nat (List.length
                  (filter opens_session
                     (consecutive_pairs
                        (map timestamp
                             (sort [commit_at 13 20; commit_at 10 0;
                                    commit_at 10 30; commit_at 18 0]))))).
Proof.
  apply sessions_are_gaps_plus_one; discriminate.
Defined.

End CommitSessionsMore.

(** ** The business-hours calculator: symmetry and single days *)

Section BusinessHoursMore.
Import Datetime IssuesWithTime.

Lemma wall_split (dt : datetime) :
  wall dt = date dt * US_PER_DAY + time_of_day dt
  /\ 0 <= time_of_day dt < US_PER_DAY.
Proof.
  unfold date, time_of_day.
  assert (0 < US_PER_DAY) by (unfold US_PER_DAY, US_PER_SECOND; lia).
  split; [|apply Z.mod_pos_bound; assumption].
  rewrite (Z.mul_comm (wall dt / US_PER_DAY)); apply Z.div_mod; lia.
Qed.

Lemma hour_ge_iff (dt : datetime) (h : Z) :
  h <= hour dt <-> h * US_PER_HOUR <= time_of_day dt.
Proof.
  unfold hour; fold (time_of_day dt).
  assert (0 < US_PER_HOUR) by (unfold US_PER_HOUR, US_PER_SECOND; lia).
  split; intros L.
  - apply Z.le_trans with (US_PER_HOUR * (time_of_day dt / US_PER_HOUR)).
    + rewrite (Z.mul_comm h); apply Z.mul_le_mono_nonneg_l; lia.
    + apply Z.mul_div_le; assumption.
  - apply Z.div_le_lower_bound; [assumption | lia].
Qed.

Lemma instant_max_ge_r (a b : datetime) : instant b <= instant (max a b).
Proof.
  unfold max, gtb; destruct (Z.ltb_spec (instant a) (instant b)); lia.
Qed.

Lemma visited_same_date (s e : datetime) :
  date s = date e -> visited s e = [s].
Proof.
  intros D; unfold visited; rewrite D.
  replace (date e - date e + 1) with 1 by lia; reflexivity.
Qed.

(** X4. The calculator does not depend on the order of its two
    arguments, when they are different instants. *)
Theorem business_hours_swap_symmetry (a b : datetime) :
  instant a <> instant b ->
  calculate_business_hours (Some a) (Some b) =
  calculate_business_hours (Some b) (Some a).
Proof.
  intros N; unfold calculate_business_hours, calculate_business_hours_fuel,
              enough_fuel, gtb.
  replace (Z.abs (date b - date a)) with (Z.abs (date a - date b)) by lia.
  destruct (Z.ltb_spec (instant b) (instant a)),
           (Z.ltb_spec (instant a) (instant b)); try lia; reflexivity.
Qed.

Lemma business_hours_swap_symmetry_witness :
  calculate_business_hours (Some (pst 2024 1 9 12 0)) (Some (pst 2024 1 5 18 0)) =
  calculate_business_hours (Some (pst 2024 1 5 18 0)) (Some (pst 2024 1 9 12 0)).
Proof.
  apply business_hours_swap_symmetry.
  vm_compute; discriminate.
Defined.

Lemma cursors_later (n : nat) (cur c : datetime) :
  In c (cursors n cur) -> c = cur \/ exists d, c = next_day d.
Proof.
  revert cur; induction n as [|n IH]; intros cur; cbn [cursors In];
    [tauto|].
  intros [<-|I]; [now left|].
  destruct (IH _ I) as [->|H]; right; eauto.
Qed.

(** X5. A business day strictly between the date of [start] and the
    date of [end] adds exactly 12 hours to the total. *)
Theorem interior_business_day_adds_12 (s e c : datetime) (total : float) :
  In c (visited s e) ->
  date c <> date s -> date c <> date e ->
  is_business_day c = true ->
  day_body s e c total = PrimFloat.add total 12.0%float.
Proof.
  intros I Ns Ne B.
  destruct (cursors_later _ _ _ I) as [->|[d ->]]; [congruence|].
  unfold day_body; rewrite B, later_days_window.
  destruct (Z.eqb_spec (date (next_day d)) (date s)); [congruence|].
  destruct (Z.eqb_spec (date (next_day d)) (date e)); [congruence|].
  assert (D : sub (replace (next_day d) 19 0 0 0) (replace (next_day d) 7 0 0 0)
              = 43200000000).
  { unfold sub, instant, replace; cbn [wall utcoffset].
    unfold US_PER_DAY, US_PER_HOUR, US_PER_MINUTE, US_PER_SECOND; lia. }
  unfold ltb; fold (sub (replace (next_day d) 7 0 0 0) (replace (next_day d) 19 0 0 0)).
  destruct (Z.ltb_spec (instant (replace (next_day d) 7 0 0 0))
                       (instant (replace (next_day d) 19 0 0 0))) as [L|L].
  - rewrite D; reflexivity.
  - unfold sub in D; lia.
Qed.

Lemma interior_business_day_adds_12_witness :
  day_body (pst 2024 1 5 18 0) (pst 2024 1 10 8 0) (pst 2024 1 9 0 0) 13.0%float
  = 25.0%float.
Proof.
  apply (interior_business_day_adds_12
           (pst 2024 1 5 18 0) (pst 2024 1 10 8 0) (pst 2024 1 9 0 0) 13.0%float).
  - vm_compute; tauto.
  - vm_compute; discriminate.
  - vm_compute; discriminate.
  - reflexivity.
Defined.

(** X6. On one business day, for a start at or after 07:00 and a later
    end in the same zone offset, the result is the time elapsed, in
    hours, provided the end is not after 19:00 or the start is itself at
    or after 19:00. *)
Theorem same_business_day_elapsed (s e : datetime) :
  date s = date e ->
  utcoffset s = utcoffset e ->
  is_business_day s = true ->
  7 * US_PER_HOUR <= time_of_day s ->
  wall s < wall e ->
  19 * US_PER_HOUR <= time_of_day s \/ time_of_day e <= 19 * US_PER_HOUR ->
  calculate_business_hours (Some s) (Some e) =
  Returns (PrimFloat.add 0.0%float
             (PrimFloat.div (total_seconds (sub e s)) (Py.float_of_int 3600))).
Proof.
  intros D O B S7 L W.
  destruct (wall_split s) as [Ws Ts], (wall_split e) as [We Te].
  rewrite calculate_business_hours_unrolled by (unfold instant; lia).
  rewrite visited_same_date by assumption; cbn [fold_left].
  unfold day_body; rewrite B, D, Z.eqb_refl.
  unfold get_business_hours_in_day.
  assert (M : max s (replace s 7 0 0 0) = s).
  { unfold max, gtb, instant, replace; cbn [wall utcoffset].
    destruct (Z.ltb_spec (wall s - utcoffset s)
                (date s * US_PER_DAY + 7 * US_PER_HOUR + 0 * US_PER_MINUTE
                 + 0 * US_PER_SECOND + 0 - utcoffset s)); [lia | reflexivity]. }
  assert (N : min e (if 19 <=? hour s then replace s 23 59 59 999999
                     else replace s 19 0 0 0) = e).
  { unfold min, ltb.
    destruct (Z.leb_spec 19 (hour s)) as [H|H];
      unfold instant, replace; cbn [wall utcoffset].
    - match goal with |- (if ?a <? ?b then _ else _) = _ =>
        destruct (Z.ltb_spec a b) as [X|X] end; [|reflexivity].
      unfold US_PER_DAY, US_PER_HOUR, US_PER_MINUTE, US_PER_SECOND in *; lia.
    - assert (~ 19 * US_PER_HOUR <= time_of_day s)
        by (rewrite <- hour_ge_iff; lia).
      match goal with |- (if ?a <? ?b then _ else _) = _ =>
        destruct (Z.ltb_spec a b) as [X|X] end; [|reflexivity].
      unfold US_PER_DAY, US_PER_HOUR, US_PER_MINUTE, US_PER_SECOND in *; lia. }
  cbv zeta; rewrite M, N.
  unfold ltb; destruct (Z.ltb_spec (instant s) (instant e)) as [X|X];
    [reflexivity | unfold instant in X; lia].
Qed.

Lemma same_business_day_elapsed_witness :
  calculate_business_hours (Some (pst 2024 1 8 9 15)) (Some (pst 2024 1 8 16 45))
  = Returns 7.5%float.
Proof.
  apply (same_business_day_elapsed (pst 2024 1 8 9 15) (pst 2024 1 8 16 45));
    try reflexivity.
  - vm_compute; discriminate.
  - right; vm_compute; discriminate.
Defined.

(** X7. A span within one weekend day gives the flat 4 hours, whatever
    its length. *)
Theorem same_weekend_day_flat_credit (s e : datetime) :
  date s = date e ->
  is_business_day s = false ->
  instant s <= instant e ->
  calculate_business_hours (Some s) (Some e) = Returns 4.0%float.
Proof.
  intros D B L.
  rewrite calculate_business_hours_unrolled by assumption.
  rewrite visited_same_date by assumption; cbn [fold_left].
  unfold day_body; rewrite B, Z.eqb_refl; reflexivity.
Qed.

Lemma same_weekend_day_flat_credit_witness :
  calculate_business_hours (Some (pst 2024 1 6 0 5)) (Some (pst 2024 1 6 23 55))
  = Returns 4.0%float.
Proof.
  apply same_weekend_day_flat_credit; try reflexivity.
  vm_compute; discriminate.
Defined.

(** X8. A span on one business day that ends at or before 07:00 counts
    nothing. *)
Theorem before_window_counts_nothing (s e : datetime) :
  date s = date e ->
  utcoffset s = utcoffset e ->
  is_business_day s = true ->
  wall s <= wall e ->
  time_of_day e <= 7 * US_PER_HOUR ->
  calculate_business_hours (Some s) (Some e) = Returns 0.0%float.
Proof.
  intros D O B L E7.
  destruct (wall_split e) as [We Te].
  rewrite calculate_business_hours_unrolled by (unfold instant; lia).
  rewrite visited_same_date by assumption; cbn [fold_left].
  unfold day_body; rewrite B, D, Z.eqb_refl.
  destruct (get_business_hours_in_day s) as [biz_start biz_end] eqn:G.
  assert (biz_start = replace s 7 0 0 0) as ->
    by (unfold get_business_hours_in_day in G; congruence).
  cbv beta iota zeta.
  pose proof (instant_max_ge_r s (replace s 7 0 0 0)) as A.
  pose proof (instant_min_le e biz_end) as C.
  unfold ltb.
  destruct (Z.ltb_spec (instant (max s (replace s 7 0 0 0)))
                       (instant (min e biz_end))) as [X|X]; [|reflexivity].
  assert (A' : instant (replace s 7 0 0 0)
               = date s * US_PER_DAY + 7 * US_PER_HOUR - utcoffset s)
    by (unfold instant, replace; cbn [wall utcoffset]; lia).
  assert (C' : instant e = wall e - utcoffset e) by reflexivity.
  rewrite A' in A; rewrite C' in C.
  unfold US_PER_DAY, US_PER_HOUR, US_PER_MINUTE, US_PER_SECOND in *; lia.
Qed.

Lemma before_window_counts_nothing_witness :
  calculate_business_hours (Some (pst 2024 1 8 1 0)) (Some (pst 2024 1 8 6 30))
  = Returns 0.0%float.
Proof.
  apply before_window_counts_nothing; try reflexivity;
    vm_compute; discriminate.
Defined.

End BusinessHoursMore.

(** ** The timeline analyzer: the scan of the events *)

Section TimelineMore.
Import Datetime IssuesWithTime.

Lemma scan_event_first_response (i : issue) (st : anchors) (ev : event) :
  first_response_of (scan_event i st ev) =
  match first_response_of st with
  | Some t => Some t
  | None => if is_response i ev then ev_created_at ev else None
  end.
Proof.
  destruct st as [[f a] l]; unfold scan_event, is_response, first_response_of.
  fold (event_type_of ev); cbn [fst].
  destruct f as [t|]; cbn [py_not];
    destruct (type_in (event_type_of ev) _); cbn [andb]; reflexivity.
Qed.

Lemma scan_event_assigned_at (i : issue) (st : anchors) (ev : event) :
  assigned_at_of (scan_event i st ev) =
  match assigned_at_of st with
  | Some t => Some t
  | None => if is_assignment ev then ev_created_at ev else None
  end.
Proof.
  destruct st as [[f a] l]; unfold scan_event, is_assignment, assigned_at_of.
  fold (event_type_of ev); cbn [fst snd].
  destruct a as [t|]; cbn [py_not];
    destruct (type_in (event_type_of ev) ["assigned"%string]);
    cbn [andb]; reflexivity.
Qed.

Lemma scan_first_response (i : issue) (l : list event) (st : anchors) :
  first_response_of (fold_left (scan_event i) l st) =
  match first_response_of st with
  | Some t => Some t
  | None => first_time (is_response i) l
  end.
Proof.
  revert st; induction l as [|ev l IH]; intros st; cbn [fold_left first_time].
  - destruct (first_response_of st); reflexivity.
  - rewrite IH, scan_event_first_response.
    destruct (first_response_of st); [reflexivity|].
    destruct (if is_response i ev then ev_created_at ev else None); reflexivity.
Qed.

Lemma scan_assigned_at (i : issue) (l : list event) (st : anchors) :
  assigned_at_of (fold_left (scan_event i) l st) =
  match assigned_at_of st with
  | Some t => Some t
  | None => first_time is_assignment l
  end.
Proof.
  revert st; induction l as [|ev l IH]; intros st; cbn [fold_left first_time].
  - destruct (assigned_at_of st); reflexivity.
  - rewrite IH, scan_event_assigned_at.
    destruct (assigned_at_of st); [reflexivity|].
    destruct (if is_assignment ev then ev_created_at ev else None); reflexivity.
Qed.

Lemma first_time_none (kind : event -> bool) (l : list event) :
  (forall ev, In ev l -> kind ev = false) -> first_time kind l = None.
Proof.
  induction l as [|ev l IH]; intros H; [reflexivity|].
  cbn [first_time]; rewrite (H ev) by now left.
  apply IH; intros; apply H; now right.
Qed.

Lemma first_time_found (kind : event -> bool) (pre post : list event)
    (ev : event) (t : datetime) :
  (forall x, In x pre -> kind x = false \/ ev_created_at x = None) ->
  kind ev = true -> ev_created_at ev = Some t ->
  first_time kind (pre ++ ev :: post) = Some t.
Proof.
  intros H K T; induction pre as [|x pre IH]; cbn [app first_time].
  - rewrite K, T; reflexivity.
  - destruct (H x (or_introl eq_refl)) as [-> | ->].
    + apply IH; intros; apply H; now right.
    + destruct (kind x); apply IH; intros; apply H; now right.
Qed.

(** What the analyzer returns, in terms of the anchors found by the
    scan. *)
Lemma analyze_issue_timing_metrics (i : issue) (timeline issue_events : list event) :
  exists r,
    analyze_issue_timing i timeline issue_events = Returns r
    /\ (forall hb, calculate_business_hours (created_at i) (closed_at i) = Returns hb ->
                   business_hours r = Py.round_ndigits hb 2)
    /\ calendar_days r =
         match created_at i, closed_at i with
         | Some created, Some closed => days (sub closed created)
         | _, _ => 0
         end
    /\ match first_time (is_response i) (all_events timeline issue_events) with
       | Some t => exists h,
           calculate_business_hours (created_at i) (Some t) = Returns h
           /\ time_to_first_response_hours r = report_metric (Some h)
       | None => time_to_first_response_hours r = None
       end
    /\ match first_time is_assignment (all_events timeline issue_events) with
       | Some t => exists h,
           calculate_business_hours (created_at i) (Some t) = Returns h
           /\ time_to_assignment_hours r = report_metric (Some h)
       | None => time_to_assignment_hours r = None
       end.
Proof.
  unfold analyze_issue_timing.
  fold (all_events timeline issue_events).
  pose proof (scan_first_response i (all_events timeline issue_events)
                (None, None, None)) as F.
  pose proof (scan_assigned_at i (all_events timeline issue_events)
                (None, None, None)) as A.
  cbn [first_response_of assigned_at_of fst snd] in F, A.
  destruct (calculate_business_hours_returns (created_at i) (closed_at i)) as [hb Hb].
  rewrite Hb; cbn [bind].
  destruct (fold_left _ _ _) as [[first_response assigned_at] labeled_at].
  unfold first_response_of, assigned_at_of in F, A; cbn [fst snd] in F, A.
  rewrite <- F, <- A; clear F A.
  destruct first_response as [f|], assigned_at as [a|]; cbn [bind];
    try destruct (calculate_business_hours_returns (created_at i) (Some f)) as [hf Hf];
    try destruct (calculate_business_hours_returns (created_at i) (Some a)) as [ha Ha];
    try rewrite Hf; try rewrite Ha; cbn [bind];
    eexists; (split; [reflexivity|]);
    (split; [intros hb' E; cbn [business_hours]; congruence|]);
    (split; [reflexivity|]); split;
    cbn [time_to_first_response_hours time_to_assignment_hours];
    eauto.
Qed.

(** X9. When no event is a comment by somebody other than the author of
    the issue, the time to first response is reported as absent; comments
    of the author never count. *)
Theorem no_response_reported_absent (i : issue) (timeline issue_events : list event) :
  (forall ev, In ev (all_events timeline issue_events) -> is_response i ev = false) ->
  exists r,
    analyze_issue_timing i timeline issue_events = Returns r
    /\ time_to_first_response_hours r = None.
Proof.
  intros H.
  destruct (analyze_issue_timing_metrics i timeline issue_events)
    as [r [E [_ [_ [F _]]]]].
  rewrite (first_time_none _ _ H) in F; eauto.
Qed.

Lemma no_response_reported_absent_witness :
  exists r,
    analyze_issue_timing instant_issue
      [mk_event (Some "commented"%string) None (Some (pst 2024 1 8 11 0))
                (Some "alice"%string);
       mk_event (Some "labeled"%string) None (Some (pst 2024 1 8 11 5))
                (Some "bob"%string)] [] = Returns r
    /\ time_to_first_response_hours r = None.
Proof.
  apply no_response_reported_absent.
  intros ev [<-|[<-|[]]]; reflexivity.
Defined.

(** X10. When no event is an assignment, the time to assignment is
    reported as absent. *)
Theorem no_assignment_reported_absent (i : issue) (timeline issue_events : list event) :
  (forall ev, In ev (all_events timeline issue_events) -> is_assignment ev = false) ->
  exists r,
    analyze_issue_timing i timeline issue_events = Returns r
    /\ time_to_assignment_hours r = None.
Proof.
  intros H.
  destruct (analyze_issue_timing_metrics i timeline issue_events)
    as [r [E [_ [_ [_ A]]]]].
  rewrite (first_time_none _ _ H) in A; eauto.
Qed.

Lemma no_assignment_reported_absent_witness :
  exists r,
    analyze_issue_timing instant_issue
      [mk_event (Some "commented"%string) None (Some (pst 2024 1 8 11 0))
                (Some "bob"%string)] [] = Returns r
    /\ time_to_assignment_hours r = None.
Proof.
  apply no_assignment_reported_absent.
  intros ev [<-|[]]; reflexivity.
Defined.

(** X11. The first response is the first comment by somebody other than
    the author that carries a time: the events before it and after it do
    not matter, and the reported metric is the one computed from the
    creation of the issue to that time. *)
Theorem first_response_is_first_foreign_comment
    (i : issue) (timeline issue_events pre post : list event)
    (ev : event) (t : datetime) :
  all_events timeline issue_events = pre ++ ev :: post ->
  (forall x, In x pre -> is_response i x = false \/ ev_created_at x = None) ->
  is_response i ev = true ->
  ev_created_at ev = Some t ->
  first_response_of
    (fold_left (scan_event i) (all_events timeline issue_events) (None, None, None))
    = Some t
  /\ exists r h,
       analyze_issue_timing i timeline issue_events = Returns r
       /\ calculate_business_hours (created_at i) (Some t) = Returns h
       /\ time_to_first_response_hours r = report_metric (Some h).
Proof.
  intros S H K T.
  pose proof (first_time_found (is_response i) pre post ev t H K T) as FT.
  rewrite <- S in FT; split.
  - rewrite scan_first_response; exact FT.
  - destruct (analyze_issue_timing_metrics i timeline issue_events)
      as [r [E [_ [_ [F _]]]]].
    rewrite FT in F; destruct F as [h [Hh R]]; eauto.
Qed.

Lemma first_response_is_first_foreign_comment_witness :
  first_response_of
    (fold_left (scan_event instant_issue)
       (all_events
          [mk_event (Some "commented"%string) None (Some (pst 2024 1 8 11 0))
                    (Some "alice"%string);
           mk_event None (Some "comment"%string) (Some (pst 2024 1 8 14 0))
                    (Some "bob"%string);
           mk_event (Some "commented"%string) None (Some (pst 2024 1 8 15 0))
                    (Some "carol"%string)] [])
       (None, None, None))
  = Some (pst 2024 1 8 14 0).
Proof.
  apply (first_response_is_first_foreign_comment instant_issue
           [mk_event (Some "commented"%string) None (Some (pst 2024 1 8 11 0))
                     (Some "alice"%string);
            mk_event None (Some "comment"%string) (Some (pst 2024 1 8 14 0))
                     (Some "bob"%string);
            mk_event (Some "commented"%string) None (Some (pst 2024 1 8 15 0))
                     (Some "carol"%string)] []
           [mk_event (Some "commented"%string) None (Some (pst 2024 1 8 11 0))
                     (Some "alice"%string)]
           [mk_event (Some "commented"%string) None (Some (pst 2024 1 8 15 0))
                     (Some "carol"%string)]
           (mk_event None (Some "comment"%string) (Some (pst 2024 1 8 14 0))
                     (Some "bob"%string))
           (pst 2024 1 8 14 0)).
  - reflexivity.
  - intros x [<-|[]]; left; reflexivity.
  - reflexivity.
  - reflexivity.
Defined.

(** X12. The assignment time is that of the first assignment event that
    carries a time. *)
Theorem assignment_is_first_assigned_event
    (i : issue) (timeline issue_events pre post : list event)
    (ev : event) (t : datetime) :
  all_events timeline issue_events = pre ++ ev :: post ->
  (forall x, In x pre -> is_assignment x = false \/ ev_created_at x = None) ->
  is_assignment ev = true ->
  ev_created_at ev = Some t ->
  assigned_at_of
    (fold_left (scan_event i) (all_events timeline issue_events) (None, None, None))
    = Some t
  /\ exists r h,
       analyze_issue_timing i timeline issue_events = Returns r
       /\ calculate_business_hours (created_at i) (Some t) = Returns h
       /\ time_to_assignment_hours r = report_metric (Some h).
Proof.
  intros S H K T.
  pose proof (first_time_found is_assignment pre post ev t H K T) as FT.
  rewrite <- S in FT; split.
  - rewrite scan_assigned_at; exact FT.
  - destruct (analyze_issue_timing_metrics i timeline issue_events)
      as [r [E [_ [_ [_ A]]]]].
    rewrite FT in A; destruct A as [h [Hh R]]; eauto.
Qed.

Lemma assignment_is_first_assigned_event_witness :
  assigned_at_of
    (fold_left (scan_event instant_issue)
       (all_events []
          [mk_event (Some "assigned"%string) None None (Some "bob"%string);
           mk_event (Some "assigned"%string) None (Some (pst 2024 1 8 14 0))
                    (Some "bob"%string);
           mk_event (Some "assigned"%string) None (Some (pst 2024 1 8 16 0))
                    (Some "carol"%string)])
       (None, None, None))
  = Some (pst 2024 1 8 14 0).
Proof.
  apply (assignment_is_first_assigned_event instant_issue []
           [mk_event (Some "assigned"%string) None None (Some "bob"%string);
            mk_event (Some "assigned"%string) None (Some (pst 2024 1 8 14 0))
                     (Some "bob"%string);
            mk_event (Some "assigned"%string) None (Some (pst 2024 1 8 16 0))
                     (Some "carol"%string)]
           [mk_event (Some "assigned"%string) None None (Some "bob"%string)]
           [mk_event (Some "assigned"%string) None (Some (pst 2024 1 8 16 0))
                     (Some "carol"%string)]
           (mk_event (Some "assigned"%string) None (Some (pst 2024 1 8 14 0))
                     (Some "bob"%string))
           (pst 2024 1 8 14 0)).
  - reflexivity.
  - intros x [<-|[]]; right; reflexivity.
  - reflexivity.
  - reflexivity.
Defined.

(** X13. With and without [--detailed] an issue gets the same business
    hours and the same calendar days, whatever the events are. *)
Theorem detailed_agrees_with_simple (i : issue) (timeline issue_events : list event) :
  exists r b,
    analyze_issue_timing i timeline issue_events = Returns r
    /\ simple_analysis i = Returns b
    /\ business_hours r = b_business_hours b
    /\ calendar_days r = b_calendar_days b
    /\ (t_number r, t_title r, t_created_at r, t_closed_at r, t_assignee r,
        t_labels r, t_url r)
       = (b_number b, b_title b, b_created_at b, b_closed_at b, b_assignee b,
          b_labels b, b_url b).
Proof.
  destruct (analyze_issue_timing_metrics i timeline issue_events)
    as [r [E [B [C _]]]].
  destruct (calculate_business_hours_returns (created_at i) (closed_at i)) as [hb Hb].
  exists r; unfold simple_analysis; rewrite Hb; cbn [bind].
  eexists; split; [exact E | split; [reflexivity|]].
  cbn [b_business_hours b_calendar_days b_number b_title b_created_at
       b_closed_at b_assignee b_labels b_url].
  split; [now apply B | split; [exact C|]].
  revert E; unfold analyze_issue_timing; rewrite Hb; cbn [bind].
  destruct (fold_left _ _ _) as [[f a] l].
  destruct f as [f|], a as [a|]; cbn [bind];
    try destruct (calculate_business_hours_returns (created_at i) (Some f)) as [hf ->];
    try destruct (calculate_business_hours_returns (created_at i) (Some a)) as [ha ->];
    cbn [bind]; intros E;
    apply (f_equal (fun o => match o with
                             | Returns x =>
                                 (t_number x, t_title x, t_created_at x,
                                  t_closed_at x, t_assignee x, t_labels x, t_url x)
                             | OutOfFuel =>
                                 (number i, title i, created_at i, closed_at i,
                                  assignee_login i, labels i, html_url i)
                             end)) in E; cbn in E; symmetry; exact E.
Qed.

End TimelineMore.

(** ** The paginated requests *)

Section Pagination.
Import IssuesWithTime Fetch.
Context {A : Type}.

Lemma pages_snoc (get : Z -> response A) (first : Z) (n : nat) :
  pages get first (S n) = pages get first n ++ json (get (first + Z.of_nat n)).
Proof.
  revert first; induction n as [|n IH]; intros first.
  - cbn [pages]; rewrite app_nil_r, Z.add_0_r; reflexivity.
  - change (pages get first (S (S n)))
      with (json (get first) ++ pages get (first + 1) (S n)).
    rewrite IH.
    replace (first + 1 + Z.of_nat n) with (first + Z.of_nat (S n)) by lia.
    cbn [pages]; rewrite <- app_assoc; reflexivity.
Qed.

Lemma closed_issues_loop_full (n fuel : nat) (get : Z -> response A)
    (issues : list A) (page : Z) :
  (forall j, (j < n)%nat -> full_page (get (page + Z.of_nat j)) = true) ->
  closed_issues_loop (n + fuel) get issues page =
  closed_issues_loop fuel get (issues ++ pages get page n) (page + Z.of_nat n).
Proof.
  revert issues page; induction n as [|n IH]; intros issues page F.
  - cbn [pages Nat.add]; rewrite app_nil_r, Z.add_0_r; reflexivity.
  - pose proof (F O ltac:(lia)) as F0; rewrite Z.add_0_r in F0.
    unfold full_page in F0; apply andb_true_iff in F0; destruct F0 as [R L].
    apply negb_true_iff in R; apply negb_true_iff in L.
    cbn [Nat.add closed_issues_loop pages]; rewrite R, L, IH.
    + rewrite <- app_assoc; f_equal; lia.
    + intros j J; specialize (F (S j) ltac:(lia)).
      replace (page + 1 + Z.of_nat j) with (page + Z.of_nat (S j)) by lia.
      exact F.
Qed.

Lemma events_loop_full (n fuel : nat) (get : Z -> response A)
    (events : list A) (page : Z) :
  (forall j, (j < n)%nat -> full_page (get (page + Z.of_nat j)) = true) ->
  events_loop (n + fuel) get events page =
  events_loop fuel get (events ++ pages get page n) (page + Z.of_nat n).
Proof.
  revert events page; induction n as [|n IH]; intros events page F.
  - cbn [pages Nat.add]; rewrite app_nil_r, Z.add_0_r; reflexivity.
  - pose proof (F O ltac:(lia)) as F0; rewrite Z.add_0_r in F0.
    unfold full_page in F0; apply andb_true_iff in F0; destruct F0 as [R L].
    apply negb_true_iff in R; apply negb_true_iff in L.
    cbn [Nat.add events_loop pages]; rewrite R, L.
    assert (S4 : (status_code (get page) =? 403) || (status_code (get page) =? 404)
                 = false).
    { unfold raises in R.
      destruct (Z.eqb_spec (status_code (get page)) 403) as [E|E];
        [rewrite E in R; discriminate|].
      destruct (Z.eqb_spec (status_code (get page)) 404) as [E'|E'];
        [rewrite E' in R; discriminate | reflexivity]. }
    rewrite S4.
    destruct (json (get page)) as [|x data] eqn:J; [discriminate|].
    rewrite IH.
    + rewrite <- app_assoc; f_equal; lia.
    + intros j Hj; specialize (F (S j) ltac:(lia)).
      replace (page + 1 + Z.of_nat j) with (page + Z.of_nat (S j)) by lia.
      exact F.
Qed.

(** X14. When the pages 1 to [n] come back full and page [n + 1] comes
    back short, without an error status, [fetch_closed_issues] returns
    the items of the pages 1 to [n + 1] in order, after [n + 1]
    requests. *)
Theorem fetch_closed_issues_collects (get : Z -> response A) (n fuel : nat) :
  (forall j, (j < n)%nat -> full_page (get (1 + Z.of_nat j)) = true) ->
  raises (get (1 + Z.of_nat n)) = false ->
  (List.length (json (get (1 + Z.of_nat n)%Z)) < per_page)%nat ->
  (n < fuel)%nat ->
  fetch_closed_issues fuel get = Returns (Ok (pages get 1 (S n))).
Proof.
  intros F R L Hf; unfold fetch_closed_issues.
  replace fuel with (n + S (fuel - S n))%nat by lia.
  rewrite closed_issues_loop_full by assumption.
  cbn [closed_issues_loop app]; rewrite R.
  apply Nat.ltb_lt in L; rewrite L, pages_snoc; reflexivity.
Qed.

(** X15. When the pages 1 to [n] come back full and page [n + 1] comes
    back with a 4xx or 5xx status, [fetch_closed_issues] raises: the
    items already collected are not returned. *)
Theorem fetch_closed_issues_raises (get : Z -> response A) (n fuel : nat) :
  (forall j, (j < n)%nat -> full_page (get (1 + Z.of_nat j)) = true) ->
  raises (get (1 + Z.of_nat n)) = true ->
  (n < fuel)%nat ->
  fetch_closed_issues fuel get = Returns HTTPError.
Proof.
  intros F R Hf; unfold fetch_closed_issues.
  replace fuel with (n + S (fuel - S n))%nat by lia.
  rewrite closed_issues_loop_full by assumption.
  cbn [closed_issues_loop]; rewrite R; reflexivity.
Qed.

(** X16. Against a server whose every page comes back full,
    [fetch_closed_issues] does not return, however many requests it is
    allowed. *)
Theorem fetch_closed_issues_needs_a_short_page (get : Z -> response A) (fuel : nat) :
  (forall page, 1 <= page -> full_page (get page) = true) ->
  fetch_closed_issues fuel get = OutOfFuel.
Proof.
  intros F; unfold fetch_closed_issues.
  replace fuel with (fuel + 0)%nat by lia.
  rewrite closed_issues_loop_full; [reflexivity|].
  intros j _; apply F; lia.
Qed.

(** X17. When the pages 1 to [n] come back full and page [n + 1] comes
    back with status 403 or 404, [fetch_issue_timeline] and
    [fetch_issue_events] return the empty list: the events already
    collected are dropped. *)
Theorem fetch_events_forbidden_gives_nothing (get : Z -> response A) (n fuel : nat) :
  (forall j, (j < n)%nat -> full_page (get (1 + Z.of_nat j)) = true) ->
  status_code (get (1 + Z.of_nat n)) = 403
  \/ status_code (get (1 + Z.of_nat n)) = 404 ->
  (n < fuel)%nat ->
  fetch_issue_timeline fuel get = Returns (Ok [])
  /\ fetch_issue_events fuel get = Returns (Ok []).
Proof.
  intros F S4 Hf; unfold fetch_issue_timeline, fetch_issue_events.
  replace fuel with (n + S (fuel - S n))%nat by lia.
  rewrite events_loop_full by assumption.
  cbn [events_loop].
  destruct S4 as [-> | ->]; split; reflexivity.
Qed.

(** X18. When the pages 1 to [n] come back full and page [n + 1] comes
    back short or empty, without an error status, [fetch_issue_timeline]
    and [fetch_issue_events] return the events of the pages 1 to [n + 1]
    in order. *)
Theorem fetch_events_collects (get : Z -> response A) (n fuel : nat) :
  (forall j, (j < n)%nat -> full_page (get (1 + Z.of_nat j)) = true) ->
  raises (get (1 + Z.of_nat n)) = false ->
  (List.length (json (get (1 + Z.of_nat n)%Z)) < per_page)%nat ->
  (n < fuel)%nat ->
  fetch_issue_timeline fuel get = Returns (Ok (pages get 1 (S n)))
  /\ fetch_issue_events fuel get = Returns (Ok (pages get 1 (S n))).
Proof.
  intros F R L Hf; unfold fetch_issue_timeline, fetch_issue_events.
  replace fuel with (n + S (fuel - S n))%nat by lia.
  rewrite events_loop_full by assumption.
  cbn [events_loop app]; rewrite R, pages_snoc.
  assert (S4 : (status_code (get (1 + Z.of_nat n)) =? 403)
               || (status_code (get (1 + Z.of_nat n)) =? 404) = false).
  { unfold raises in R.
    destruct (Z.eqb_spec (status_code (get (1 + Z.of_nat n))) 403) as [E|E];
      [rewrite E in R; discriminate|].
    destruct (Z.eqb_spec (status_code (get (1 + Z.of_nat n))) 404) as [E'|E'];
      [rewrite E' in R; discriminate | reflexivity]. }
  rewrite S4.
  destruct (json (get (1 + Z.of_nat n))) as [|x data] eqn:J.
  - rewrite app_nil_r; split; reflexivity.
  - apply Nat.ltb_lt in L; rewrite L; split; reflexivity.
Qed.

End Pagination.

Section PaginationExamples.
Import IssuesWithTime Fetch.

Lemma first_page_full (get : Z -> response Z) :
  full_page (get 1) = true ->
  forall j, (j < 1)%nat -> full_page (get (1 + Z.of_nat j)) = true.
Proof. intros F j J; replace j with 0%nat by lia; exact F. Qed.

Lemma fetch_closed_issues_collects_witness :
  fetch_closed_issues 5 two_page_server = Returns (Ok (items_from 0 107)).
Proof.
  apply (fetch_closed_issues_collects two_page_server 1 5).
  - apply first_page_full; reflexivity.
  - reflexivity.
  - vm_compute; lia.
  - lia.
Defined.

Lemma fetch_closed_issues_raises_witness :
  fetch_closed_issues 5 (failing_server 502) = Returns HTTPError.
Proof.
  apply (fetch_closed_issues_raises (failing_server 502) 1 5).
  - apply first_page_full; reflexivity.
  - reflexivity.
  - lia.
Defined.

Lemma fetch_closed_issues_needs_a_short_page_witness :
  fetch_closed_issues 50 endless_server = OutOfFuel.
Proof.
  apply fetch_closed_issues_needs_a_short_page.
  intros page _; unfold full_page, raises, endless_server, items_from.
  cbn [status_code json]; rewrite length_map, length_seq; reflexivity.
Defined.

Lemma fetch_events_forbidden_gives_nothing_witness :
  fetch_issue_timeline 5 (failing_server 403) = Returns (Ok [])
  /\ fetch_issue_events 5 (failing_server 403) = Returns (Ok []).
Proof.
  apply (fetch_events_forbidden_gives_nothing (failing_server 403) 1 5).
  - apply first_page_full; reflexivity.
  - left; reflexivity.
  - lia.
Defined.

Lemma fetch_events_collects_witness :
  fetch_issue_timeline 5 two_page_server = Returns (Ok (items_from 0 107))
  /\ fetch_issue_events 5 two_page_server = Returns (Ok (items_from 0 107)).
Proof.
  apply (fetch_events_collects two_page_server 1 5).
  - apply first_page_full; reflexivity.
  - reflexivity.
  - vm_compute; lia.
  - lia.
Defined.

End PaginationExamples.

(** ** The metadata fallback estimator: ranges and defaults *)

Section MetadataMore.
Import Fallback.
Local Open Scope string_scope.

Lemma for_all_rules_at (P : Z -> float -> bool) (base : Z)
    (b1 b2 b3 b4 b5 b6 : bool) :
  for_all_rules P base = true ->
  P base (multiplier_from b1 b2 b3 b4 b5 b6) = true.
Proof.
  intros H; unfold for_all_rules in H.
  apply forallb_bools with (b := b1) in H.
  apply forallb_bools with (b := b2) in H.
  apply forallb_bools with (b := b3) in H.
  apply forallb_bools with (b := b4) in H.
  apply forallb_bools with (b := b5) in H.
  apply forallb_bools with (b := b6) in H.
  exact H.
Qed.

Lemma multiplier_of_from (t : string) :
  multiplier_of t =
  multiplier_from
    (Py.contains "refactor" t || Py.contains "restructure" t)
    (Py.contains "test" t || Py.contains "testing" t)
    (Py.contains "fix" t && negb (Py.contains "hotfix" t))
    (Py.contains "update" t || Py.contains "enhance" t)
    (Py.contains "mvp" t)
    (Py.contains "working" t || Py.contains "mid" t).
Proof. reflexivity. Qed.

Lemma hours_in_range_all : forallb (for_all_rules hours_in_range) hours_values = true.
Proof. vm_compute; reflexivity. Qed.

(** X19. For every input the estimator returns hours between 1.3 and
    60.4, between 1 and 3 sessions and at least 1 commit. *)
Theorem metadata_estimate_ranges (p : pr) :
  exists r,
    estimate_time_from_metadata p = Some r
    /\ PrimFloat.leb 1.3%float (estimated_hours r) = true
    /\ PrimFloat.leb (estimated_hours r) 60.4%float = true
    /\ (1 <= sessions r <= 3)%Z
    /\ (1 <= commits r)%Z.
Proof.
  destruct (estimate_time_from_metadata_returns p) as [n E].
  eexists; split; [exact E|].
  cbn [estimated_hours sessions commits].
  pose proof (base_hours_in (get (category p) "Maintenance")
                            (get (complexity p) "Small")) as B.
  pose proof hours_in_range_all as A.
  rewrite forallb_forall in A; specialize (A _ B).
  rewrite multiplier_of_from.
  eapply for_all_rules_at in A; unfold hours_in_range, hours_of in A.
  apply andb_true_iff in A; destruct A as [Lo Hi].
  split; [exact Lo | split; [exact Hi | split]].
  - pose proof (dict_get_in [("Small", 1); ("Medium", 2); ("Large", 3)]%Z
                  (get (complexity p) "Small") 1%Z) as D.
    set (s := Py.dict_get _ _ _) in *.
    destruct D as [D | [k I]]; [lia|].
    cbn [In] in I.
    destruct I as [I | [I | [I | []]]]; injection I as _ I; lia.
  - unfold Py.max_int; destruct (Z.ltb_spec 1 n); lia.
Qed.

Lemma lower_ascii_idempotent (c : ascii) :
  Py.lower_ascii (Py.lower_ascii c) = Py.lower_ascii c.
Proof. destruct c as [[] [] [] [] [] [] [] []]; reflexivity. Qed.

Lemma lower_idempotent (s : string) : Py.lower (Py.lower s) = Py.lower s.
Proof.
  induction s as [|c s IH]; [reflexivity|].
  cbn [Py.lower]; rewrite lower_ascii_idempotent, IH; reflexivity.
Qed.

(** X20. The case of the letters of the title does not matter: two
    titles that are equal once lower-cased get the same estimate, and a
    title gets the estimate of its lower-cased form. *)
Theorem title_case_is_ignored (c x : option string) (t t' : string) :
  Py.lower t = Py.lower t' ->
  estimate_time_from_metadata (mk_pr c x (Some t)) =
  estimate_time_from_metadata (mk_pr c x (Some t'))
  /\ estimate_time_from_metadata (mk_pr c x (Some (Py.lower t))) =
     estimate_time_from_metadata (mk_pr c x (Some t)).
Proof.
  intros E; unfold estimate_time_from_metadata.
  cbn [category complexity title get].
  rewrite lower_idempotent, E; split; reflexivity.
Qed.

Lemma title_case_is_ignored_witness :
  estimate_time_from_metadata
    (mk_pr (Some "Bug_Fix") (Some "Medium") (Some "FIX Login; Update TESTS")) =
  estimate_time_from_metadata
    (mk_pr (Some "Bug_Fix") (Some "Medium") (Some "fix login; update tests")).
Proof.
  apply title_case_is_ignored; reflexivity.
Defined.

Lemma dict_get_absent {V : Type} (d : list (string * V)) (k : string) (default : V) :
  ~ In k (map fst d) -> Py.dict_get d k default = default.
Proof.
  induction d as [|[k' v] d IH]; cbn [map fst In Py.dict_get]; intros N;
    [reflexivity|].
  destruct (String.eqb_spec k' k); [tauto | apply IH; tauto].
Qed.

(** X21. A category that is not in the table is treated as
    "Maintenance", as is a missing category. *)
Theorem unknown_category_is_maintenance (cat : string) (x t : option string) :
  ~ In cat (map fst DEFAULT_DEV_HOURS) ->
  estimate_time_from_metadata (mk_pr (Some cat) x t) =
  estimate_time_from_metadata (mk_pr (Some "Maintenance") x t)
  /\ estimate_time_from_metadata (mk_pr None x t) =
     estimate_time_from_metadata (mk_pr (Some "Maintenance") x t).
Proof.
  intros N; split; [|reflexivity].
  unfold estimate_time_from_metadata, base_hours_of.
  cbn [category complexity title get].
  rewrite (dict_get_absent DEFAULT_DEV_HOURS cat) by assumption.
  reflexivity.
Qed.

Lemma unknown_category_is_maintenance_witness :
  estimate_time_from_metadata
    (mk_pr (Some "Chore") (Some "Large") (Some "Tidy the build")) =
  estimate_time_from_metadata
    (mk_pr (Some "Maintenance") (Some "Large") (Some "Tidy the build")).
Proof.
  apply unknown_category_is_maintenance.
  cbn [map fst DEFAULT_DEV_HOURS In]; intros H.
  repeat (destruct H as [H|H]; [discriminate|]); exact H.
Defined.

Lemma rows_have_the_three_complexities :
  Forall (fun row => map fst (snd row) = complexities) DEFAULT_DEV_HOURS.
Proof. repeat constructor. Qed.

(** X22. A complexity other than "Small", "Medium" and "Large" gives 6
    base hours whatever the category, and 1 session. *)
Theorem unknown_complexity_defaults (c t : option string) (x : string) :
  ~ In x complexities ->
  base_hours_of (get c "Maintenance") x = 6%Z
  /\ exists r,
       estimate_time_from_metadata (mk_pr c (Some x) t) = Some r
       /\ estimated_hours r = hours_of 6 (multiplier_of (Py.lower (get t "")))
       /\ sessions r = 1%Z.
Proof.
  intros N.
  assert (B : forall cat, base_hours_of cat x = 6%Z).
  { intros cat; unfold base_hours_of.
    set (maintenance := Py.dict_get DEFAULT_DEV_HOURS "Maintenance" []).
    apply dict_get_absent.
    pose proof rows_have_the_three_complexities as R.
    rewrite Forall_forall in R.
    destruct (dict_get_in DEFAULT_DEV_HOURS cat maintenance) as [-> | [k I]].
    - exact N.
    - pose proof (R _ I) as Rk; cbn [snd] in Rk; rewrite Rk; exact N. }
  split; [apply B|].
  destruct (estimate_time_from_metadata_returns (mk_pr c (Some x) t)) as [n E].
  eexists; split; [exact E|].
  cbn [estimated_hours sessions category complexity title get].
  rewrite B; split; [reflexivity|].
  apply dict_get_absent; exact N.
Qed.

Lemma unknown_complexity_defaults_witness :
  base_hours_of (get (Some "Feature") "Maintenance") "XL" = 6%Z.
Proof.
  apply (unknown_complexity_defaults (Some "Feature") (Some "Big feature") "XL").
  cbn [complexities In]; intros H.
  repeat (destruct H as [H|H]; [discriminate|]); exact H.
Defined.

End MetadataMore.

(** ** The issue number of a title *)

Section IssueNumber.
Import Fallback.
Local Open Scope string_scope.

Lemma hash_is_no_digit : is_digit "#"%char = false.
Proof. reflexivity. Qed.

Lemma match_digits_no_digit (c : ascii) (s : string) :
  is_digit c = false -> match_digits (String c s) = None.
Proof. intros H; unfold match_digits; cbn [leading_digits]; now rewrite H. Qed.

Lemma match_digits_digit (c : ascii) (s : string) :
  is_digit c = true ->
  match_digits (String c s) = Some (leading_digits (String c s)).
Proof. intros H; unfold match_digits; cbn [leading_digits]; now rewrite H. Qed.

Lemma search_unfold (s : string) :
  search s =
  match match_here s with
  | Some g => Some g
  | None =>
      match s with
      | EmptyString => None
      | String _ s' => search s'
      end
  end.
Proof. destruct s; reflexivity. Qed.

Lemma match_here_digit (c : ascii) (s : string) :
  is_digit c = true ->
  match_here (String c s) = Some (leading_digits (String c s)).
Proof.
  intros H; unfold match_here.
  destruct (Ascii.ascii_dec c "#"%char) as [->|N];
    [rewrite hash_is_no_digit in H; discriminate|].
  rewrite match_digits_digit by assumption.
  destruct c as [[] [] [] [] [] [] [] []]; try reflexivity; congruence.
Qed.

(** A character that is no digit is passed over. *)
Lemma search_skip (c : ascii) (s : string) :
  is_digit c = false -> search (String c s) = search s.
Proof.
  intros H; rewrite search_unfold.
  assert (M : match_here (String c s) = None \/
              exists d s', s = String d s' /\ is_digit d = true
                           /\ match_here (String c s) = Some (leading_digits s)).
  { unfold match_here.
    destruct (Ascii.ascii_dec c "#"%char) as [->|N].
    - destruct s as [|d s'].
      + left; reflexivity.
      + destruct (is_digit d) eqn:D.
        * right; exists d, s'; rewrite match_digits_digit by assumption; auto.
        * left; rewrite !match_digits_no_digit by assumption; reflexivity.
    - left; rewrite match_digits_no_digit by assumption.
      destruct c as [[] [] [] [] [] [] [] []]; try reflexivity; congruence. }
  destruct M as [-> | [d [s' [-> [D M]]]]]; [reflexivity|].
  rewrite M, search_unfold, match_here_digit by assumption; reflexivity.
Qed.

Lemma search_no_digits (s : string) :
  all_chars (fun c => negb (is_digit c)) s = true -> search s = None.
Proof.
  induction s as [|c s IH]; [reflexivity|].
  cbn [all_chars]; intros H; apply andb_true_iff in H; destruct H as [C H].
  apply negb_true_iff in C; rewrite search_skip by assumption; auto.
Qed.

Lemma search_after_no_digits (pre s : string) :
  all_chars (fun c => negb (is_digit c)) pre = true ->
  search (pre ++ s) = search s.
Proof.
  induction pre as [|c pre IH]; [reflexivity|].
  cbn [all_chars append]; intros H; apply andb_true_iff in H; destruct H as [C H].
  apply negb_true_iff in C; rewrite search_skip by assumption; auto.
Qed.

Lemma leading_digits_app (ds post : string) :
  all_chars is_digit ds = true -> leading_digits post = "" ->
  leading_digits (ds ++ post) = ds.
Proof.
  intros D P; induction ds as [|c ds IH]; [exact P|].
  cbn [all_chars] in D; apply andb_true_iff in D; destruct D as [C D].
  cbn [append leading_digits]; rewrite C, IH by assumption; reflexivity.
Qed.

Lemma leading_digits_are_digits (s : string) :
  all_chars is_digit (leading_digits s) = true.
Proof.
  induction s as [|c s IH]; [reflexivity|].
  cbn [leading_digits]; destruct (is_digit c) eqn:C; [|reflexivity].
  cbn [all_chars]; rewrite C, IH; reflexivity.
Qed.

(** X23. In a title made of a part without digits, then one or more
    digits, then a rest that does not start with a digit, the issue
    number is those digits; a [#] before them is not part of it. *)
Theorem extract_issue_number_first_digits (pre ds post : string) :
  all_chars (fun c => negb (is_digit c)) pre = true ->
  ds <> "" ->
  all_chars is_digit ds = true ->
  leading_digits post = "" ->
  extract_issue_number (pre ++ ds ++ post) = ds.
Proof.
  intros P N D R; unfold extract_issue_number.
  rewrite search_after_no_digits by assumption.
  destruct ds as [|c ds]; [congruence|].
  pose proof D as D'; cbn [all_chars] in D'.
  apply andb_true_iff in D'; destruct D' as [C _].
  cbn [append]; rewrite search_unfold, match_here_digit by assumption.
  change (String c (ds ++ post)) with (String c ds ++ post).
  rewrite leading_digits_app by assumption; reflexivity.
Qed.

Lemma extract_issue_number_first_digits_witness :
  extract_issue_number "Fix crash in PR #123: retry 45 times" = "123".
Proof.
  apply (extract_issue_number_first_digits "Fix crash in PR #" "123"
           ": retry 45 times"); try reflexivity.
  discriminate.
Defined.

(** X24. A title without a digit has the issue number "N/A"; and the
    issue number of any title is "N/A" or a string of one or more
    digits. *)
Theorem extract_issue_number_shape (title : string) :
  (all_chars (fun c => negb (is_digit c)) title = true ->
   extract_issue_number title = "N/A")
  /\ (extract_issue_number title = "N/A"
      \/ (extract_issue_number title <> ""
          /\ all_chars is_digit (extract_issue_number title) = true)).
Proof.
  split.
  - intros H; unfold extract_issue_number; now rewrite search_no_digits.
  - unfold extract_issue_number.
    induction title as [|c title IH]; [left; reflexivity|].
    destruct (is_digit c) eqn:C.
    + right; rewrite search_unfold, match_here_digit by assumption.
      split; [|apply leading_digits_are_digits].
      cbn [leading_digits]; rewrite C; discriminate.
    + rewrite search_skip by assumption; exact IH.
Qed.

End IssueNumber.

(** ** The analyzer and its requests; the business days of a week *)

Section AnalyzerRequests.
Import Datetime IssuesWithTime Fetch.

(** X25. When the timeline request is answered with 403 or 404 the
    analyzer works on the issue events instead; when that request is
    answered with 403 or 404 as well, the analyzer still returns, with
    both response metrics absent. *)
Theorem forbidden_timeline_falls_back_to_events
    (fuel : nat) (get_timeline get_events : Z -> response event) (i : issue) :
  (0 < fuel)%nat ->
  status_code (get_timeline 1) = 403 \/ status_code (get_timeline 1) = 404 ->
  (forall events,
     fetch_issue_events fuel get_events = Returns (Ok events) ->
     exists r,
       analyze_issue_timing_fetching fuel get_timeline get_events i = Returns (Ok r)
       /\ analyze_issue_timing i [] events = Returns r)
  /\ (status_code (get_events 1) = 403 \/ status_code (get_events 1) = 404 ->
      exists r,
        analyze_issue_timing_fetching fuel get_timeline get_events i = Returns (Ok r)
        /\ time_to_first_response_hours r = None
        /\ time_to_assignment_hours r = None).
Proof.
  intros Hf T.
  assert (FB : forall get : Z -> response event,
             status_code (get 1) = 403 \/ status_code (get 1) = 404 ->
             events_loop fuel get [] 1 = Returns (Ok [])).
  { intros get S4; destruct fuel as [|fuel]; [lia|].
    cbn [events_loop]; destruct S4 as [-> | ->]; reflexivity. }
  assert (U : forall events,
             fetch_issue_events fuel get_events = Returns (Ok events) ->
             analyze_issue_timing_fetching fuel get_timeline get_events i =
             bind (analyze_issue_timing i [] events) (fun r => Returns (Ok r))).
  { intros events E; unfold analyze_issue_timing_fetching, fetch_issue_timeline.
    rewrite (FB _ T); cbn [bind]; rewrite E; reflexivity. }
  split.
  - intros events E.
    destruct (analyze_issue_timing_returns i [] events) as [r R].
    exists r; rewrite (U _ E), R; split; reflexivity.
  - intros F.
    destruct (analyze_issue_timing_metrics i [] []) as [r [R [_ [_ [N1 N2]]]]].
    cbn [all_events app first_time] in N1, N2.
    exists r; rewrite (U [] (FB _ F)), R; repeat split; assumption.
Qed.

Lemma forbidden_timeline_falls_back_to_events_witness :
  exists r,
    analyze_issue_timing_fetching 3
      (fun _ => mk_response 404 [])
      (fun _ => mk_response 403 [])
      instant_issue = Returns (Ok r)
    /\ time_to_first_response_hours r = None
    /\ time_to_assignment_hours r = None.
Proof.
  apply (forbidden_timeline_falls_back_to_events 3
           (fun _ => mk_response 404 []) (fun _ => mk_response 403 [])
           instant_issue).
  - lia.
  - right; reflexivity.
  - left; reflexivity.
Defined.

Lemma weekday_add_days (dt : datetime) (k : Z) :
  weekday (add_days dt k) = (weekday dt + k) mod 7.
Proof.
  unfold weekday; rewrite date_add_days, Zplus_mod_idemp_l.
  f_equal; lia.
Qed.

(** X26. Of any seven consecutive days exactly five are business days,
    and a day is a business day exactly when the day a week later is. *)
Theorem five_business_days_a_week (dt : datetime) :
  List.length (business_days_from dt 7) = 5%nat
  /\ is_business_day (add_days dt 7) = is_business_day dt.
Proof.
  unfold business_days_from, is_business_day.
  cbn [seq map filter]; rewrite !weekday_add_days.
  assert (B : 0 <= weekday dt < 7) by (apply Z.mod_pos_bound; lia).
  assert (C : weekday dt = 0 \/ weekday dt = 1 \/ weekday dt = 2 \/ weekday dt = 3
              \/ weekday dt = 4 \/ weekday dt = 5 \/ weekday dt = 6) by lia.
  destruct C as [-> | [-> | [-> | [-> | [-> | [-> | ->]]]]]]; split; reflexivity.
Qed.

End AnalyzerRequests.
